(** * A shallow embedding of the workflow engine of [app_og.py]

    The engine walks a graph of named nodes, each bound to a tool of the
    registry [TOOLS], over one shared, mutable run state.  The embedding
    follows the Python source function by function:

    - Python values are a tagged tree ([value]); a dict is an association
      list in insertion order, as [dict] iteration is ordered;
    - an operation that may raise returns in the error monad [py];
    - a tool runs in a state-and-exception monad ([Tool]) over the state
      object it is handed, so that a mutation followed by a raise is
      expressible;
    - [execute_graph] is the [while] loop of the source, structurally
      recursive on the remaining step budget [MAX_STEPS - visited];
    - the endpoints are functions on the two stores [GRAPHS] and [RUNS].

    Scope of the value model: [None], integers, strings, lists and dicts
    with string keys.  Floats, booleans and tuples are outside it; the
    default bounds tuple [(0, 100)] is only ever unpacked by the source and
    is represented by the two-element sequence.  A Rocq [string] stands for
    a Python [str], one character per code point. *)

From Stdlib Require Import List ZArith Bool Ascii String Lia.
Import ListNotations.
Open Scope string_scope.
Open Scope list_scope.
Open Scope Z_scope.

(** ** Python values *)

Set Warnings "-register-all".

Inductive value : Type :=
| VNone
| VInt (z : Z)
| VStr (s : string)
| VList (items : list value)
| VDict (entries : list (string * value)).

Inductive exn : Type :=
| AttributeError
| TypeError
| KeyError
| ValueError.

(** The result of an expression that may raise. *)
Inductive py (A : Type) : Type :=
| Ok (a : A)
| Err (e : exn).
Arguments Ok {A} a.
Arguments Err {A} e.

Definition py_bind {A B} (m : py A) (k : A -> py B) : py B :=
  match m with
  | Ok a => k a
  | Err e => Err e
  end.

Declare Scope py_scope.
Delimit Scope py_scope with py.
Notation "x <- m ;; k" := (py_bind m (fun x => k))
  (at level 61, m at next level, right associativity) : py_scope.
Notation "' pat <- m ;; k" := (py_bind m (fun x => match x with pat => k end))
  (at level 61, pat pattern, m at next level, right associativity) : py_scope.

(** A stronger induction principle for the nested [value] tree. *)
Section ValueInd.
Variable P : value -> Prop.
Hypothesis HNone : P VNone.
Hypothesis HInt : forall z, P (VInt z).
Hypothesis HStr : forall s, P (VStr s).
Hypothesis HList : forall l, Forall P l -> P (VList l).
Hypothesis HDict : forall d, Forall (fun kv => P (snd kv)) d -> P (VDict d).

Fixpoint value_nested_ind (v : value) : P v :=
  match v with
  | VNone => HNone
  | VInt z => HInt z
  | VStr s => HStr s
  | VList l =>
      HList l ((fix go (l : list value) : Forall P l :=
                  match l with
                  | [] => Forall_nil _
                  | x :: l' => Forall_cons x (value_nested_ind x) (go l')
                  end) l)
  | VDict d =>
      HDict d ((fix go (d : list (string * value))
                  : Forall (fun kv => P (snd kv)) d :=
                  match d with
                  | [] => Forall_nil _
                  | kv :: d' =>
                      Forall_cons kv (value_nested_ind (snd kv)) (go d')
                  end) d)
  end.
End ValueInd.

(** ** Dicts *)

Definition dict := list (string * value).

(** [d.get(k)] on the entries: the value bound to [k], if any. *)
Fixpoint dict_get (k : string) (d : dict) : option value :=
  match d with
  | [] => None
  | (k', v) :: d' => if String.eqb k k' then Some v else dict_get k d'
  end.

(** [d[k] = v]: rebinds [k] in place, or appends a new entry. *)
Fixpoint dict_set (k : string) (v : value) (d : dict) : dict :=
  match d with
  | [] => [(k, v)]
  | (k', v') :: d' =>
      if String.eqb k k' then (k', v) :: d' else (k', v') :: dict_set k v d'
  end.

Definition keys (d : dict) : list string := map fst d.

Fixpoint mem_string (k : string) (l : list string) : bool :=
  match l with
  | [] => false
  | k' :: l' => String.eqb k k' || mem_string k l'
  end.

Fixpoint distinct (l : list string) : bool :=
  match l with
  | [] => true
  | k :: l' => negb (mem_string k l') && distinct l'
  end.

(** A Python dict binds a key once: the association lists that stand for
    dicts have distinct keys, at every depth. *)
Fixpoint wf_value (v : value) : bool :=
  match v with
  | VList l => forallb wf_value l
  | VDict d => distinct (keys d) && forallb (fun kv => wf_value (snd kv)) d
  | _ => true
  end.

(** ** Primitive operations *)

(** [a == b].  Lists compare element by element; dicts compare as
    mappings, whatever the insertion order. *)
Fixpoint py_eq (a b : value) : bool :=
  match a, b with
  | VNone, VNone => true
  | VInt x, VInt y => Z.eqb x y
  | VStr x, VStr y => String.eqb x y
  | VList xs, VList ys =>
      (fix go (xs ys : list value) : bool :=
         match xs, ys with
         | [], [] => true
         | x :: xs', y :: ys' => py_eq x y && go xs' ys'
         | _, _ => false
         end) xs ys
  | VDict d, VDict e =>
      Nat.eqb (List.length d) (List.length e) &&
      (fix go (d : dict) : bool :=
         match d with
         | [] => true
         | (k, v) :: d' =>
             match dict_get k e with
             | Some w => py_eq v w
             | None => false
             end && go d'
         end) d
  | _, _ => false
  end.

Inductive cmp_op : Type := Lt | Le | Gt | Ge.

Definition cmp_Z (op : cmp_op) (x y : Z) : bool :=
  match op with
  | Lt => Z.ltb x y
  | Le => Z.leb x y
  | Gt => Z.gtb x y
  | Ge => Z.geb x y
  end.

Definition cmp_of_comparison (op : cmp_op) (c : comparison) : bool :=
  match op, c with
  | Lt, Datatypes.Lt => true
  | Le, (Datatypes.Lt | Datatypes.Eq) => true
  | Gt, Datatypes.Gt => true
  | Ge, (Datatypes.Gt | Datatypes.Eq) => true
  | _, _ => false
  end.

(** [a < b], [a <= b], [a > b], [a >= b].  Integers and strings are
    ordered among themselves; lists are ordered lexicographically, the
    first pair of unequal items deciding; everything else raises
    [TypeError]. *)
Fixpoint py_order (op : cmp_op) (a b : value) : py bool :=
  match a, b with
  | VInt x, VInt y => Ok (cmp_Z op x y)
  | VStr x, VStr y => Ok (cmp_of_comparison op (String.compare x y))
  | VList xs, VList ys =>
      (fix go (xs ys : list value) : py bool :=
         match xs, ys with
         | x :: xs', y :: ys' =>
             if py_eq x y then go xs' ys' else py_order op x y
         | _, _ =>
             Ok (cmp_of_comparison op
                   (Nat.compare (List.length xs) (List.length ys)))
         end) xs ys
  | _, _ => Err TypeError
  end.

(** Truth value of an object, as tested by [if x] and [not x]. *)
Definition truthy (v : value) : bool :=
  match v with
  | VNone => false
  | VInt z => negb (Z.eqb z 0)
  | VStr s => negb (String.eqb s "")
  | VList l => match l with [] => false | _ => true end
  | VDict d => match d with [] => false | _ => true end
  end.

Definition is_none (v : value) : bool :=
  match v with VNone => true | _ => false end.

(** [o.get(k, default)]: only a dict has a [get] method. *)
Definition get_method (o : value) (k : string) (default : value) : py value :=
  match o with
  | VDict d => Ok (match dict_get k d with Some v => v | None => default end)
  | _ => Err AttributeError
  end.

(** [o[k]] for a string key [k]. *)
Definition getitem (o : value) (k : string) : py value :=
  match o with
  | VDict d => match dict_get k d with Some v => Ok v | None => Err KeyError end
  | _ => Err TypeError
  end.

Fixpoint chars (s : string) : list value :=
  match s with
  | EmptyString => []
  | String c s' => VStr (String c EmptyString) :: chars s'
  end.

(** The items that [for v in o] visits. *)
Definition py_iter (o : value) : py (list value) :=
  match o with
  | VList l => Ok l
  | VStr s => Ok (chars s)
  | VDict d => Ok (map VStr (keys d))
  | _ => Err TypeError
  end.

(** [len(o)]. *)
Definition py_len (o : value) : py Z :=
  match o with
  | VList l => Ok (Z.of_nat (List.length l))
  | VStr s => Ok (Z.of_nat (String.length s))
  | VDict d => Ok (Z.of_nat (List.length d))
  | _ => Err TypeError
  end.

(** [a, b = o]. *)
Definition unpack2 (o : value) : py (value * value) :=
  match py_iter o with
  | Ok [a; b] => Ok (a, b)
  | Ok _ => Err ValueError
  | Err e => Err e
  end.

(** [min(a, b)] keeps [a] unless [b < a]; [max(a, b)] keeps [a] unless
    [b > a]. *)
Definition py_min (a b : value) : py value :=
  (lt <- py_order Lt b a ;; Ok (if lt then b else a))%py.

Definition py_max (a b : value) : py value :=
  (gt <- py_order Gt b a ;; Ok (if gt then b else a))%py.

(** [s.split(".")]. *)
Fixpoint split_dot (s : string) : list string :=
  match s with
  | EmptyString => [EmptyString]
  | String c rest =>
      if Ascii.eqb c "."%char then EmptyString :: split_dot rest
      else match split_dot rest with
           | [] => [String c EmptyString]
           | p :: ps => String c p :: ps
           end
  end.

(** ** Tools: computations over the state object

    A tool receives the state dict by reference.  [Returns st a] is a call
    that returned [a] and left the object it was handed with contents
    [st]; [Raises st e] is a call that raised [e], the object having
    contents [st] at that point. *)

Inductive tool_result (A : Type) : Type :=
| Returns (st : value) (a : A)
| Raises (st : value) (e : exn).
Arguments Returns {A} st a.
Arguments Raises {A} st e.

Definition Tool (A : Type) : Type := value -> tool_result A.

Definition tool_bind {A B} (m : Tool A) (k : A -> Tool B) : Tool B :=
  fun st =>
    match m st with
    | Returns st' a => k a st'
    | Raises st' e => Raises st' e
    end.

Definition tool_ret {A} (a : A) : Tool A := fun st => Returns st a.

(** An expression that does not touch the state object. *)
Definition lift {A} (p : py A) : Tool A :=
  fun st =>
    match p with
    | Ok a => Returns st a
    | Err e => Raises st e
    end.

(** The reference [state] itself, as in [return state]. *)
Definition the_state : Tool value := fun st => Returns st st.

(** [state.get(k, default)]. *)
Definition state_get (k : string) (default : value) : Tool value :=
  fun st => lift (get_method st k default) st.

(** [state[k] = v]. *)
Definition state_setitem (k : string) (v : value) : Tool unit :=
  fun st =>
    match st with
    | VDict d => Returns (VDict (dict_set k v d)) tt
    | _ => Raises st TypeError
    end.

Declare Scope tool_scope.
Delimit Scope tool_scope with tool.
Notation "x <- m ;; k" := (tool_bind m (fun x => k))
  (at level 61, m at next level, right associativity) : tool_scope.
Notation "' pat <- m ;; k" :=
  (tool_bind m (fun x => match x with pat => k end))
  (at level 61, pat pattern, m at next level, right associativity)
  : tool_scope.
Notation "m ;;; k" := (tool_bind m (fun _ => k))
  (at level 61, right associativity) : tool_scope.

Definition count_of (n : nat) : value := VInt (Z.of_nat n).

(** [profile_data_tool]: row count and null count of [data]. *)
Definition profile_data_tool : Tool value :=
  (data <- state_get "data" (VList []) ;;
   n <- lift (py_len data) ;;
   items <- lift (py_iter data) ;;
   let nulls := List.length (filter is_none items) in
   state_setitem "profile"
     (VDict [("rows", VInt n); ("nulls", count_of nulls)]) ;;;
   the_state)%tool.

(** [v is not None and (v < low or v > high)]. *)
Definition out_of_bounds (low high v : value) : py bool :=
  if is_none v then Ok false
  else (below <- py_order Lt v low ;;
        if below then Ok true else py_order Gt v high)%py.

(** A list comprehension [[v for v in items if keep(v)]] whose condition
    may raise. *)
Fixpoint filter_py (keep : value -> py bool) (items : list value)
  : py (list value) :=
  match items with
  | [] => Ok []
  | v :: rest =>
      (b <- keep v ;;
       kept <- filter_py keep rest ;;
       Ok (if b then v :: kept else kept))%py
  end.

Definition default_bounds : value := VList [VInt 0; VInt 100].

(** [detect_anomalies_tool]: the non-null entries outside the bounds. *)
Definition detect_anomalies_tool : Tool value :=
  (data <- state_get "data" (VList []) ;;
   bounds <- state_get "anomaly_bounds" default_bounds ;;
   '(low, high) <- lift (unpack2 bounds) ;;
   items <- lift (py_iter data) ;;
   anomalies <- lift (filter_py (out_of_bounds low high) items) ;;
   state_setitem "anomalies"
     (VDict [("count", count_of (List.length anomalies));
             ("values", VList (firstn 10 anomalies))]) ;;;
   the_state)%tool.

Definition fill_null_rule : value :=
  VDict [("name", VStr "fill_null"); ("action", VStr "fill");
         ("value", VInt 0)].

Definition clip_rule_of (low high : value) : value :=
  VDict [("name", VStr "clip"); ("action", VStr "clip");
         ("low", low); ("high", high)].

(** [generate_rules_tool]: a fill rule when the profile counts nulls, a
    clip rule when anomalies were counted, in this order. *)
Definition generate_rules_tool : Tool value :=
  (let rules := [] in
   profile <- state_get "profile" (VDict []) ;;
   nulls <- lift (get_method profile "nulls" (VInt 0)) ;;
   has_nulls <- lift (py_order Gt nulls (VInt 0)) ;;
   let rules := if has_nulls then rules ++ [fill_null_rule] else rules in
   anomalies <- state_get "anomalies" (VDict []) ;;
   count <- lift (get_method anomalies "count" (VInt 0)) ;;
   has_anomalies <- lift (py_order Gt count (VInt 0)) ;;
   rules <- (if has_anomalies
             then (bounds <- state_get "anomaly_bounds" default_bounds ;;
                   '(low, high) <- lift (unpack2 bounds) ;;
                   tool_ret (rules ++ [clip_rule_of low high]))
             else tool_ret rules) ;;
   state_setitem "rules" (VList rules) ;;;
   the_state)%tool.

(** [next((r for r in rules if r.get("name") == name), None)] over the
    items of [rules]: the scan stops at the first match. *)
Fixpoint first_named (name : string) (items : list value) : py value :=
  match items with
  | [] => Ok VNone
  | r :: rest =>
      (n <- get_method r "name" VNone ;;
       if py_eq n (VStr name) then Ok r else first_named name rest)%py
  end.

Definition find_rule (name : string) (rules : value) : py value :=
  (items <- py_iter rules ;; first_named name items)%py.

(** The body of the [for v in data] loop of [apply_rules_tool]: the entry
    appended to [new_data] for [v]. *)
Definition apply_to_entry (rules v : value) : py value :=
  if is_none v then
    (fill_rule <- find_rule "fill_null" rules ;;
     if truthy fill_rule then getitem fill_rule "value" else Ok v)%py
  else
    (clip_rule <- find_rule "clip" rules ;;
     if truthy clip_rule then
       (low <- getitem clip_rule "low" ;;
        high <- getitem clip_rule "high" ;;
        m <- py_min high v ;;
        py_max low m)
     else Ok v)%py.

Fixpoint map_py (f : value -> py value) (items : list value)
  : py (list value) :=
  match items with
  | [] => Ok []
  | v :: rest =>
      (w <- f v ;; ws <- map_py f rest ;; Ok (w :: ws))%py
  end.

(** [apply_rules_tool]: fill nulls, clip the other entries. *)
Definition apply_rules_tool : Tool value :=
  (data <- state_get "data" (VList []) ;;
   rules <- state_get "rules" (VList []) ;;
   items <- lift (py_iter data) ;;
   new_data <- lift (map_py (apply_to_entry rules) items) ;;
   state_setitem "data" (VList new_data) ;;;
   the_state)%tool.

Definition registry : Type := string -> option (Tool value).

Definition TOOLS : registry :=
  fun name =>
    if String.eqb name "profile" then Some profile_data_tool
    else if String.eqb name "detect_anomalies" then Some detect_anomalies_tool
    else if String.eqb name "generate_rules" then Some generate_rules_tool
    else if String.eqb name "apply_rules" then Some apply_rules_tool
    else None.

(** ** Graphs and run records *)

(** [GraphDef], as validated on creation: node names to tool names, each
    node's successor, the start node, an optional loop condition. *)
Record GraphDef : Type := {
  nodes : list (string * string);
  edges : list (string * string);
  start_node : string;
  loop_condition : option dict
}.

Fixpoint str_get (k : string) (m : list (string * string)) : option string :=
  match m with
  | [] => None
  | (k', v) :: m' => if String.eqb k k' then Some v else str_get k m'
  end.

Inductive Status : Type := running | finished | failed.

Definition Status_eqb (a b : Status) : bool :=
  match a, b with
  | running, running | finished, finished | failed, failed => true
  | _, _ => false
  end.

(** The entries the executor appends to the log, one constructor per
    message of the source:
    - [RunningNode c t]: "Running node: c -> t";
    - [MissingTool t]: "Missing tool: t";
    - [ExceptionIn t e]: "Exception in t: repr(e)";
    - [LoopStop c m]: "Loop stop satisfied: c (metric=m)";
    - [StateUnchanged]: "State unchanged - stopping to avoid infinite
      loop.";
    - [ExecutionFinished]: "Execution finished".
    A tool name is [None] when the node is not a key of [nodes]. *)
Inductive log_entry : Type :=
| RunningNode (current : string) (tool_name : option string)
| MissingTool (tool_name : option string)
| ExceptionIn (tool_name : option string) (e : exn)
| LoopStop (cond : option dict) (metric_val : value)
| StateUnchanged
| ExecutionFinished.

(** One entry of the [RUNS] store. *)
Record RunRecord : Type := {
  run_state : value;
  run_log : list log_entry;
  run_status : Status
}.

Definition set_state (s : value) (r : RunRecord) : RunRecord :=
  {| run_state := s; run_log := run_log r; run_status := run_status r |}.
Definition set_log (l : list log_entry) (r : RunRecord) : RunRecord :=
  {| run_state := run_state r; run_log := l; run_status := run_status r |}.
Definition set_status (s : Status) (r : RunRecord) : RunRecord :=
  {| run_state := run_state r; run_log := run_log r; run_status := s |}.

(** ** Metric resolver and condition evaluator *)

(** The [for p in parts] loop of [_resolve_metric]. *)
Fixpoint walk (cur : value) (parts : list string) : py value :=
  match parts with
  | [] => Ok cur
  | p :: rest =>
      if is_none cur then Ok VNone
      else (next <- get_method cur p VNone ;; walk next rest)%py
  end.

(** [_resolve_metric(state, metric_path)]; [split] is a method of [str]
    only. *)
Definition _resolve_metric (state metric_path : value) : py value :=
  match metric_path with
  | VStr path => walk state (split_dot path)
  | _ => Err AttributeError
  end.

Definition op_is (op : value) (symbol : string) : bool :=
  py_eq op (VStr symbol).

(** [_condition_satisfied(snap)], closed over the graph. *)
Definition _condition_satisfied (graph : GraphDef) (snap : value)
  : py (bool * value) :=
  match loop_condition graph with
  | None => Ok (false, VNone)
  | Some cond =>
      let loop_cond := VDict cond in
      if negb (truthy loop_cond) then Ok (false, VNone)
      else
        (metric <- getitem loop_cond "metric" ;;
         metric_val <- _resolve_metric snap metric ;;
         op <- getitem loop_cond "op" ;;
         target <- getitem loop_cond "value" ;;
         if is_none metric_val then Ok (false, metric_val)
         else if op_is op "<=" then
           (b <- py_order Le metric_val target ;; Ok (b, metric_val))
         else if op_is op "<" then
           (b <- py_order Lt metric_val target ;; Ok (b, metric_val))
         else if op_is op ">=" then
           (b <- py_order Ge metric_val target ;; Ok (b, metric_val))
         else if op_is op ">" then
           (b <- py_order Gt metric_val target ;; Ok (b, metric_val))
         else if op_is op "==" then
           Ok (py_eq metric_val target, metric_val)
         else if op_is op "!=" then
           Ok (negb (py_eq metric_val target), metric_val)
         else Ok (false, metric_val))%py
  end.

(** ** The executor *)

(** The local variables of [execute_graph] at the head of its loop,
    together with the run's entry [run] of the store. *)
Record frame : Type := {
  current : string;
  visited : nat;
  state : value;
  prev_state : value;
  log : list log_entry;
  run : RunRecord
}.

(** How a call of [execute_graph] ends: it returns, or an exception that
    nothing catches leaves it. *)
Inductive ending : Type :=
| Returned
| Uncaught (e : exn).

Record exec_result : Type := {
  final_run : RunRecord;
  steps : nat;
  how : ending
}.

(** What one pass through the loop body does next. *)
Inductive transition : Type :=
| Next (fr : frame)
| Break (fr : frame)
| Halt (res : exec_result).

Definition MAX_STEPS : nat := 200.

Section Executor.
Variable tools : registry.
Variable graph : GraphDef.

(** [TOOLS.get(tool_name)]. *)
Definition tool_for (tool_name : option string) : option (Tool value) :=
  match tool_name with
  | Some name => tools name
  | None => None
  end.

(** The body of the [while] loop. *)
Definition loop_body (fr : frame) : transition :=
  let visited := S (visited fr) in
  let tool_name := str_get (current fr) (nodes graph) in
  let log := log fr ++ [RunningNode (current fr) tool_name] in
  match tool_for tool_name with
  | None =>
      let log := log ++ [MissingTool tool_name] in
      Halt {| final_run := set_log log (set_status failed (run fr));
              steps := visited; how := Returned |}
  | Some tool_fn =>
      match tool_fn (state fr) with
      | Raises st e =>
          let log := log ++ [ExceptionIn tool_name e] in
          Halt {| final_run :=
                    set_state st (set_log log (set_status failed (run fr)));
                  steps := visited; how := Returned |}
      | Returns st result =>
          let state := if is_none result then st else result in
          let run := set_log log (set_state state (run fr)) in
          match _condition_satisfied graph state with
          | Err e =>
              Halt {| final_run := run; steps := visited;
                      how := Uncaught e |}
          | Ok (satisfied, metric_val) =>
              if satisfied then
                let log :=
                  log ++ [LoopStop (loop_condition graph) metric_val] in
                Halt {| final_run :=
                          set_state state
                            (set_log log (set_status finished run));
                        steps := visited; how := Returned |}
              else if py_eq state (prev_state fr) then
                let log := log ++ [StateUnchanged] in
                Halt {| final_run :=
                          set_state state
                            (set_log log (set_status finished run));
                        steps := visited; how := Returned |}
              else
                let after_node next :=
                  {| current := next; visited := visited; state := state;
                     prev_state := state; log := log; run := run |} in
                match str_get (current fr) (edges graph) with
                | None => Break (after_node (current fr))
                | Some next_node =>
                    if String.eqb next_node ""
                    then Break (after_node (current fr))
                    else Next (after_node next_node)
                end
          end
      end
  end.

(** The "normal finish" after the loop. *)
Definition normal_finish (fr : frame) : exec_result :=
  if negb (Status_eqb (run_status (run fr)) failed) then
    let log := log fr ++ [ExecutionFinished] in
    {| final_run :=
         set_state (state fr) (set_log log (set_status finished (run fr)));
       steps := visited fr; how := Returned |}
  else {| final_run := run fr; steps := visited fr; how := Returned |}.

(** [while current and visited < MAX_STEPS], with [budget] standing for
    [MAX_STEPS - visited]. *)
Fixpoint run_loop (budget : nat) (fr : frame) : exec_result :=
  match budget with
  | O => normal_finish fr
  | S budget' =>
      if String.eqb (current fr) "" then normal_finish fr
      else match loop_body fr with
           | Next fr' => run_loop budget' fr'
           | Break fr' => normal_finish fr'
           | Halt res => res
           end
  end.

(** The frame on entry: [prev_state] is a deep copy of the state. *)
Definition entry (r : RunRecord) : frame :=
  {| current := start_node graph; visited := 0%nat;
     state := run_state r; prev_state := run_state r;
     log := run_log r; run := r |}.

Definition execute (max_steps : nat) (r : RunRecord) : exec_result :=
  run_loop max_steps (entry r).

(** The frame at the head of the loop once [k] passes have completed and
    asked for another. *)
Fixpoint after (k : nat) (fr : frame) : option frame :=
  match k with
  | O => Some fr
  | S k' =>
      if String.eqb (current fr) "" then None
      else match loop_body fr with
           | Next fr' => after k' fr'
           | _ => None
           end
  end.
End Executor.

(** [execute_graph], on the graph and the run record that the two stores
    hold for [graph_id] and [run_id]. *)
Definition execute_graph (graph : GraphDef) (r : RunRecord) : exec_result :=
  execute TOOLS graph MAX_STEPS r.

(** The record that [run_graph] and [run_graph_sync] create. *)
Definition new_run (init_state : value) : RunRecord :=
  {| run_state := init_state; run_log := []; run_status := running |}.

(** ** Graphs, states and registries used as examples *)

Definition linear_nodes : list (string * string) :=
  [("profile", "profile"); ("detect_anomalies", "detect_anomalies");
   ("generate_rules", "generate_rules"); ("apply_rules", "apply_rules")].

(** profile -> detect_anomalies -> generate_rules -> apply_rules. *)
Definition pipeline : GraphDef :=
  {| nodes := linear_nodes;
     edges := [("profile", "detect_anomalies");
               ("detect_anomalies", "generate_rules");
               ("generate_rules", "apply_rules")];
     start_node := "profile";
     loop_condition := None |}.

(** data=[1, None, 150], anomaly_bounds=(0, 100). *)
Definition scenario_state : value :=
  VDict [("data", VList [VInt 1; VNone; VInt 150]);
         ("anomaly_bounds", VList [VInt 0; VInt 100])].

(** detect_anomalies <-> apply_rules, until anomalies.count <= 0. *)
Definition clip_loop : GraphDef :=
  {| nodes := [("detect", "detect_anomalies"); ("apply", "apply_rules")];
     edges := [("detect", "apply"); ("apply", "detect")];
     start_node := "detect";
     loop_condition :=
       Some [("metric", VStr "anomalies.count"); ("op", VStr "<=");
             ("value", VInt 0)] |}.

Definition clip_loop_state : value :=
  VDict [("data", VList [VInt 1; VInt 150]);
         ("anomaly_bounds", VList [VInt 0; VInt 100]);
         ("rules", VList [clip_rule_of (VInt 0) (VInt 100)])].


(** [data] holds a string: [detect_anomalies] raises on comparing it with
    the bounds, after [profile] has succeeded. *)
Definition mixed_state : value :=
  VDict [("data", VList [VInt 1; VStr "x"])].

(** A registry with a tool that counts its calls in [state["n"]] and one
    that returns the state as it is. *)
Definition tick_tool : Tool value :=
  (n <- state_get "n" (VInt 0) ;;
   match n with
   | VInt z => state_setitem "n" (VInt (z + 1)) ;;; the_state
   | _ => lift (Err TypeError)
   end)%tool.

(** A tool that assigns a key and then raises. *)
Definition spoil_tool : Tool value :=
  (state_setitem "dirty" (VInt 1) ;;; lift (Err ValueError))%tool.

Definition demo_tools : registry :=
  fun name =>
    if String.eqb name "tick" then Some tick_tool
    else if String.eqb name "noop" then Some the_state
    else if String.eqb name "spoil" then Some spoil_tool
    else None.

Definition self_loop (tool_name : string) (cond : option dict) : GraphDef :=
  {| nodes := [("a", tool_name)];
     edges := [("a", "a")];
     start_node := "a";
     loop_condition := cond |}.

(** ** The metric resolver, in the words of the specification

    "Walk the path segment by segment through nested mappings.  Returns
    the value at the path, or a sentinel absent if any intermediate
    segment is missing or not a mapping, or if the final key is absent."
    [spec_resolve] follows this sentence, not the code, and is what
    [_resolve_metric] is compared with. *)
Inductive metric : Type :=
| Present (v : value)
| Absent.

Fixpoint spec_resolve (cur : value) (parts : list string) : metric :=
  match parts with
  | [] => Present cur
  | p :: rest =>
      match cur with
      | VDict d =>
          match dict_get p d with
          | Some v => spec_resolve v rest
          | None => Absent
          end
      | _ => Absent
      end
  end.

(** A state whose [anomalies] entry is a number, not a mapping. *)
Definition scalar_state : value := VDict [("anomalies", VInt 5)].

(** A condition on "data.count": [data] is a list. *)
Definition list_metric_graph : GraphDef :=
  {| nodes := [("profile", "profile")];
     edges := [];
     start_node := "profile";
     loop_condition :=
       Some [("metric", VStr "data.count"); ("op", VStr "<=");
             ("value", VInt 0)] |}.

(** The metric [m] present with value null, and not present. *)
Definition null_metric_state : value := VDict [("m", VNone)].
Definition no_metric_state : value := VDict [].

Definition metric_m_graph : GraphDef :=
  {| nodes := [("profile", "profile")];
     edges := [];
     start_node := "profile";
     loop_condition :=
       Some [("metric", VStr "m"); ("op", VStr "=="); ("value", VInt 0)] |}.

(** ** States and rules on which [apply_rules] is applied twice *)

Definition int_or_none (v : value) : bool :=
  match v with
  | VNone | VInt _ => true
  | _ => false
  end.

(** [fill] and [clip] are what [apply_rules_tool] finds for the names
    "fill_null" and "clip" ([None] when there is no such rule).  The clip
    bounds are integers, and a value that fills a null is itself null or
    an integer within the bounds. *)
Definition fill_fits_clip (fill clip : value) : bool :=
  if truthy clip then
    match getitem clip "low", getitem clip "high" with
    | Ok (VInt lo), Ok (VInt hi) =>
        if truthy fill then
          match getitem fill "value" with
          | Ok VNone => true
          | Ok (VInt v) => Z.leb lo v && Z.leb v hi
          | _ => false
          end
        else true
    | _, _ => false
    end
  else if truthy fill then
    match getitem fill "value" with
    | Ok _ => true
    | Err _ => false
    end
  else true.

(** Nulls and an outlier, with a lower bound above the fill value 0:
    data=[None, 150], anomaly_bounds=(10, 100). *)
Definition low_bound_state : value :=
  VDict [("data", VList [VNone; VInt 150]);
         ("anomaly_bounds", VList [VInt 10; VInt 100])].

Definition rules_10_100 : value :=
  VList [fill_null_rule; clip_rule_of (VInt 10) (VInt 100)].

(** The state that profile, detect_anomalies and generate_rules make of
    [low_bound_state], with [data] as given. *)
Definition low_bound_with (data : list value) : value :=
  VDict [("data", VList data);
         ("anomaly_bounds", VList [VInt 10; VInt 100]);
         ("profile", VDict [("rows", VInt 2); ("nulls", VInt 1)]);
         ("anomalies",
          VDict [("count", VInt 1); ("values", VList [VInt 150])]);
         ("rules", rules_10_100)].

(** A fill value within the clip bounds. *)
Definition rules_0_100 : value :=
  VList [fill_null_rule; clip_rule_of (VInt 0) (VInt 100)].

Definition rules_0_100_state : value :=
  VDict [("data", VList [VInt 1; VNone; VInt 150]);
         ("rules", rules_0_100)].

Definition rules_0_100_applied : value :=
  VDict [("data", VList [VInt 1; VInt 0; VInt 100]);
         ("rules", rules_0_100)].

(** Two disciplines of a tool computation: [reads_only] never changes the
    state object; [untouched_on_raise] may change it, but not on a path
    that raises. *)
Definition reads_only {A} (m : Tool A) : Prop :=
  forall s, match m s with
            | Returns st _ => st = s
            | Raises st _ => st = s
            end.

Definition untouched_on_raise {A} (m : Tool A) : Prop :=
  forall s st e, m s = Raises st e -> st = s.

(** What the loop variables satisfy at the head of every pass: the
    record holds the current state and log, and the snapshot is the
    current state. *)
Definition in_step (fr : frame) : Prop :=
  run_state (run fr) = state fr /\
  run_log (run fr) = log fr /\
  prev_state fr = state fr.

(** ** What each registered tool writes *)

Definition is_dict (v : value) : bool :=
  match v with
  | VDict _ => true
  | _ => false
  end.

(** The key that the tool registered under [name] assigns: the target of
    its one [state[...] = ...] statement. *)
Definition written_key (name : string) : string :=
  if String.eqb name "profile" then "profile"
  else if String.eqb name "detect_anomalies" then "anomalies"
  else if String.eqb name "generate_rules" then "rules"
  else "data".

(** A computation that, when it returns, has assigned the key [k] of the
    state dict and nothing else, and returns the state object. *)
Definition assigns (k : string) (m : Tool value) : Prop :=
  forall s st result, m s = Returns st result ->
    result = st /\
    exists d v, s = VDict d /\ st = VDict (dict_set k v d).

(** ** The tools on nullable integers, as plain functions *)

(** An integer outside [lo, hi]; a null is never outside. *)
Definition outside (lo hi : Z) (v : value) : bool :=
  match v with
  | VInt x => Z.ltb x lo || Z.gtb x hi
  | _ => false
  end.

(** The rules that fit a list of entries and bounds: a fill rule when an
    entry is null, then a clip rule when an entry is outside. *)
Definition expected_rules (lo hi : Z) (items : list value) : list value :=
  (if existsb is_none items then [fill_null_rule] else []) ++
  (if existsb (outside lo hi) items
   then [clip_rule_of (VInt lo) (VInt hi)] else []).

(** An entry once the rules are applied: an integer is clamped, a null
    becomes [fill_value]. *)
Definition settled (fill_value : value) (lo hi : Z) (v : value) : value :=
  match v with
  | VInt x => VInt (Z.max lo (Z.min hi x))
  | _ => fill_value
  end.

(** Two tools run one after the other on the same state object. *)
Definition and_then (first second : Tool value) : Tool value :=
  tool_bind first (fun _ => second).

(** ** The comparators of a loop condition *)

Definition operators : list string := ["<="; "<"; ">="; ">"; "=="; "!="].

(** What each comparator says of two integers. *)
Definition meaning (symbol : string) (m t : Z) : Prop :=
  if String.eqb symbol "<=" then m <= t
  else if String.eqb symbol "<" then m < t
  else if String.eqb symbol ">=" then m >= t
  else if String.eqb symbol ">" then m > t
  else if String.eqb symbol "==" then m = t
  else m <> t.

(** ** Reading a log *)

Definition is_running_entry (e : log_entry) : bool :=
  match e with
  | RunningNode _ _ => true
  | _ => false
  end.

(** The number of "Running node" entries. *)
Definition count_running (l : list log_entry) : nat :=
  List.length (filter is_running_entry l).

(** The entries that end a run, and the status each goes with. *)
Definition closes (e : log_entry) (s : Status) : bool :=
  match e, s with
  | (LoopStop _ _ | StateUnchanged | ExecutionFinished), finished => true
  | (MissingTool _ | ExceptionIn _ _), failed => true
  | _, _ => false
  end.

(** ** The stores and the endpoints

    [GRAPHS] and [RUNS] are the two module-level dicts.  An identifier
    that the source draws with [uuid.uuid4()] is an argument of the
    endpoint here.  A request body is the dict FastAPI hands over.  An
    endpoint is modelled as one uninterrupted call: requests served while
    a run yields at [asyncio.sleep(0)] are not interleaved with it. *)

Fixpoint store_get {A} (k : string) (m : list (string * A)) : option A :=
  match m with
  | [] => None
  | (k', a) :: m' => if String.eqb k k' then Some a else store_get k m'
  end.

Fixpoint store_set {A} (k : string) (a : A) (m : list (string * A))
  : list (string * A) :=
  match m with
  | [] => [(k, a)]
  | (k', a') :: m' =>
      if String.eqb k k' then (k', a) :: m' else (k', a') :: store_set k a m'
  end.

Record stores : Type := {
  GRAPHS : list (string * GraphDef);
  RUNS : list (string * RunRecord)
}.

(** Looking [graph_id] up in [GRAPHS], whose keys are strings: a list or
    a dict cannot be hashed, anything else that is not a key is just
    absent. *)
Definition graph_lookup (graphs : list (string * GraphDef))
    (graph_id : value) : py (option GraphDef) :=
  match graph_id with
  | VStr id => Ok (store_get id graphs)
  | VNone | VInt _ => Ok None
  | VList _ | VDict _ => Err TypeError
  end.

(** The bodies the endpoints return:
    - [GraphCreated g]: {"graph_id": g};
    - [RunStarted r]: {"run_id": r};
    - [RunFinished r s l st]: {"run_id": r, "state": s, "log": l,
      "status": st};
    - [RunView s l st]: {"state": s, "log": l, "status": st};
    - [ErrorBody m]: {"error": m};
    - [ErrorPair m c]: the pair ({"error": m}, c). *)
Inductive response : Type :=
| GraphCreated (graph_id : string)
| RunStarted (run_id : string)
| RunFinished (run_id : string) (state : value) (log : list log_entry)
    (status : Status)
| RunView (state : value) (log : list log_entry) (status : Status)
| ErrorBody (message : string)
| ErrorPair (message : string) (code : Z).

(** POST /graph/create. *)
Definition create_graph (st : stores) (graph_id : string) (g : GraphDef)
  : stores * response :=
  ({| GRAPHS := store_set graph_id g (GRAPHS st); RUNS := RUNS st |},
   GraphCreated graph_id).

(** POST /graph/run, up to its [return]: the task it creates runs
    [execute_graph] later and is the third component. *)
Definition run_graph (st : stores) (run_id : string) (payload : dict)
  : stores * py response * option (value * string) :=
  match getitem (VDict payload) "graph_id" with
  | Err e => (st, Err e, None)
  | Ok graph_id =>
      match graph_lookup (GRAPHS st) graph_id with
      | Err e => (st, Err e, None)
      | Ok None => (st, Ok (ErrorPair "graph_id not found" 400), None)
      | Ok (Some _) =>
          let init_state :=
            match dict_get "initial_state" payload with
            | Some v => v
            | None => VDict []
            end in
          ({| GRAPHS := GRAPHS st;
              RUNS := store_set run_id (new_run init_state) (RUNS st) |},
           Ok (RunStarted run_id), Some (graph_id, run_id))
      end
  end.

(** POST /graph/run_sync. *)
Definition run_graph_sync (st : stores) (run_id : string) (payload : dict)
  : stores * py response :=
  match getitem (VDict payload) "graph_id" with
  | Err e => (st, Err e)
  | Ok graph_id =>
      let init_state :=
        match dict_get "initial_state" payload with
        | Some v => v
        | None => VDict []
        end in
      let st1 := {| GRAPHS := GRAPHS st;
                    RUNS := store_set run_id (new_run init_state) (RUNS st) |}
      in
      match graph_lookup (GRAPHS st1) graph_id with
      | Err e => (st1, Err e)
      | Ok None => (st1, Err KeyError)
      | Ok (Some graph) =>
          let res := execute_graph graph (new_run init_state) in
          let st2 := {| GRAPHS := GRAPHS st1;
                        RUNS := store_set run_id (final_run res) (RUNS st1) |}
          in
          match how res with
          | Uncaught e => (st2, Err e)
          | Returned =>
              (st2,
               Ok (RunFinished run_id (run_state (final_run res))
                     (run_log (final_run res))
                     (run_status (final_run res))))
          end
      end
  end.

(** GET /graph/state/{run_id}. *)
Definition get_run_state (st : stores) (run_id : string) : response :=
  match store_get run_id (RUNS st) with
  | None => ErrorBody "run_id not found"
  | Some run =>
      RunView (run_state run) (run_log run) (run_status run)
  end.

(** Stores with one graph and one earlier run, and a request for it. *)
Definition demo_stores : stores :=
  {| GRAPHS := [("g1", pipeline)];
     RUNS := [("r0", new_run (VDict []))] |}.

Definition demo_payload (graph_id : string) : dict :=
  [("graph_id", VStr graph_id); ("initial_state", scenario_state)].

(** ** Inputs of the revised statements *)

(** A key of the path is missing: walking the path through the nested
    mappings reaches a mapping that lacks the next segment, or a null
    where a further segment was to be looked up.  A number, string or
    list in the way is not a missing key. *)
Fixpoint key_missing (cur : value) (parts : list string) : bool :=
  match parts with
  | [] => false
  | p :: rest =>
      match cur with
      | VDict d =>
          match dict_get p d with
          | Some v => key_missing v rest
          | None => true
          end
      | VNone => true
      | _ => false
      end
  end.

(** The metric anomalies.count present with value null. *)
Definition null_count_state : value :=
  VDict [("anomalies", VDict [("count", VNone)])].


(** * Properties *)

(** ** The primitives on small inputs *)

Example split_dot_path :
  split_dot "anomalies.count" = ["anomalies"; "count"].
Proof. reflexivity. Qed.

Example split_dot_empty : split_dot "" = [""].
Proof. reflexivity. Qed.

Example split_dot_trailing : split_dot "a..b." = ["a"; ""; "b"; ""].
Proof. reflexivity. Qed.

Example py_eq_ignores_order :
  py_eq (VDict [("a", VInt 1); ("b", VNone)])
        (VDict [("b", VNone); ("a", VInt 1)]) = true.
Proof. reflexivity. Qed.

Example py_order_lists :
  py_order Lt (VList [VInt 1; VInt 2]) (VList [VInt 1; VInt 3]) = Ok true /\
  py_order Ge (VList [VInt 1]) (VList [VInt 1; VInt 3]) = Ok false.
Proof. split; reflexivity. Qed.

Example py_order_none : py_order Lt VNone (VInt 0) = Err TypeError.
Proof. reflexivity. Qed.

Example clip_150 :
  (m <- py_min (VInt 100) (VInt 150) ;; py_max (VInt 0) m)%py
    = Ok (VInt 100).
Proof. reflexivity. Qed.

Example profile_on_scenario :
  profile_data_tool scenario_state =
    Returns
      (VDict [("data", VList [VInt 1; VNone; VInt 150]);
              ("anomaly_bounds", VList [VInt 0; VInt 100]);
              ("profile", VDict [("rows", VInt 3); ("nulls", VInt 1)])])
      (VDict [("data", VList [VInt 1; VNone; VInt 150]);
              ("anomaly_bounds", VList [VInt 0; VInt 100]);
              ("profile", VDict [("rows", VInt 3); ("nulls", VInt 1)])]).
Proof. reflexivity. Qed.

Example detect_on_mixed :
  detect_anomalies_tool mixed_state = Raises mixed_state TypeError.
Proof. reflexivity. Qed.

Example profile_on_list_state :
  profile_data_tool (VList []) = Raises (VList []) AttributeError.
Proof. reflexivity. Qed.

(** ** Facts about the primitives *)

Lemma dict_get_set_other (k k' : string) (v : value) (d : dict) :
  k <> k' -> dict_get k (dict_set k' v d) = dict_get k d.
Proof.
  intros Hk. induction d as [|[k0 v0] d IH]; simpl.
  - destruct (String.eqb_spec k k'); [contradiction | reflexivity].
  - destruct (String.eqb_spec k' k0) as [->|Hne]; simpl.
    + destruct (String.eqb_spec k k0); [contradiction | reflexivity].
    + destruct (String.eqb k k0); [reflexivity | exact IH].
Qed.

Lemma dict_get_set_same (k : string) (v : value) (d : dict) :
  dict_get k (dict_set k v d) = Some v.
Proof.
  induction d as [|[k0 v0] d IH]; simpl.
  - now rewrite String.eqb_refl.
  - destruct (String.eqb_spec k k0) as [->|Hne]; simpl.
    + now rewrite String.eqb_refl.
    + destruct (String.eqb_spec k k0); [contradiction | exact IH].
Qed.

Lemma dict_set_same_value (k : string) (v : value) (d : dict) :
  dict_get k d = Some v -> dict_set k v d = d.
Proof.
  induction d as [|[k0 v0] d IH]; simpl; [discriminate|].
  destruct (String.eqb_spec k k0) as [->|Hne]; intros H.
  - now inversion H.
  - now rewrite IH.
Qed.

Lemma mem_string_In (k : string) (l : list string) :
  mem_string k l = true <-> In k l.
Proof.
  induction l as [|k' l IH]; simpl; [easy|].
  rewrite orb_true_iff, IH. destruct (String.eqb_spec k k'); split;
    intros [H|H]; auto; try discriminate; congruence.
Qed.

Lemma dict_get_distinct (k : string) (v : value) (d : dict) :
  distinct (keys d) = true -> In (k, v) d -> dict_get k d = Some v.
Proof.
  induction d as [|[k0 v0] d IH]; simpl; [easy|].
  rewrite andb_true_iff, negb_true_iff. intros [Hfresh Hd] [Heq|Hin].
  - inversion Heq; subst. now rewrite String.eqb_refl.
  - destruct (String.eqb_spec k k0) as [->|Hne]; [|auto].
    exfalso. assert (Hk : mem_string k0 (keys d) = true).
    { apply mem_string_In. unfold keys. now apply (in_map fst _ (k0, v)). }
    congruence.
Qed.

(** On Python dicts (distinct keys), [==] is reflexive: a deep copy
    compares equal to its original. *)
Lemma py_eq_refl (v : value) : wf_value v = true -> py_eq v v = true.
Proof.
  induction v as [| z | s | l IH | d IH] using value_nested_ind;
    simpl; intros Hwf; auto.
  - apply Z.eqb_refl.
  - apply String.eqb_refl.
  - induction IH as [|x l Hx _ IHl]; [reflexivity|].
    simpl in Hwf. apply andb_true_iff in Hwf as [Hwx Hwl].
    now rewrite Hx, IHl.
  - apply andb_true_iff in Hwf as [Hdist Hall].
    rewrite Nat.eqb_refl. simpl.
    assert (Hsub : forall kv, In kv d -> In kv d) by auto.
    revert Hsub. generalize d at 1 4 as d0.
    induction d0 as [|[k w] d0 IHd0]; intros Hsub; [reflexivity|].
    assert (Hin : In (k, w) d) by (apply Hsub; now left).
    rewrite (dict_get_distinct k w d Hdist Hin).
    rewrite Forall_forall in IH. rewrite forallb_forall in Hall.
    rewrite (IH (k, w) Hin (Hall (k, w) Hin) : py_eq w w = true). simpl.
    apply IHd0. intros kv Hkv. apply Hsub. now right.
Qed.

(** ** The loop of the executor *)

Section Loop.
Variable tools : registry.
Variable graph : GraphDef.

Abbreviation loop_body := (loop_body tools graph).
Abbreviation run_loop := (run_loop tools graph).
Abbreviation after := (after tools graph).
Abbreviation entry := (entry graph).

Lemma in_step_entry (r : RunRecord) : in_step (entry r).
Proof. now repeat split. Qed.

Lemma loop_body_Next (fr fr' : frame) :
  loop_body fr = Next fr' ->
  in_step fr' /\ visited fr' = S (visited fr) /\
  run_status (run fr') = run_status (run fr) /\ current fr' <> "".
Proof.
  unfold loop_body.
  destruct (tool_for _ _) as [tool_fn|]; [|discriminate].
  destruct (tool_fn _) as [st result|st e]; [|discriminate].
  destruct (_condition_satisfied _ _) as [[[] mv]|]; try discriminate.
  destruct (py_eq _ _); [discriminate|].
  destruct (str_get (current fr) (edges graph)) as [n|]; [|discriminate].
  destruct (String.eqb_spec n ""); [discriminate|].
  intros H. inversion H; subst; clear H. now repeat split.
Qed.

Lemma loop_body_Break (fr fr' : frame) :
  loop_body fr = Break fr' ->
  in_step fr' /\ visited fr' = S (visited fr) /\
  run_status (run fr') = run_status (run fr).
Proof.
  unfold loop_body.
  destruct (tool_for _ _) as [tool_fn|]; [|discriminate].
  destruct (tool_fn _) as [st result|st e]; [|discriminate].
  destruct (_condition_satisfied _ _) as [[[] mv]|]; try discriminate.
  destruct (py_eq _ _); [discriminate|].
  destruct (str_get (current fr) (edges graph)) as [n|].
  - destruct (String.eqb n ""); [|discriminate].
    intros H. inversion H; subst; clear H. now repeat split.
  - intros H. inversion H; subst; clear H. now repeat split.
Qed.

(** A pass that halts has counted itself, and leaves a terminal status
    unless an exception escaped. *)
Lemma loop_body_Halt (fr : frame) (res : exec_result) :
  loop_body fr = Halt res ->
  steps res = S (visited fr) /\
  (how res = Returned ->
   run_status (final_run res) = finished \/
   run_status (final_run res) = failed).
Proof.
  unfold loop_body.
  destruct (tool_for _ _) as [tool_fn|].
  2:{ intros H. inversion H; subst; simpl. auto. }
  destruct (tool_fn _) as [st result|st e].
  2:{ intros H. inversion H; subst; simpl. auto. }
  destruct (_condition_satisfied _ _) as [[[] mv]|].
  - intros H. inversion H; subst; simpl. auto.
  - destruct (py_eq _ _).
    + intros H. inversion H; subst; simpl. auto.
    + destruct (str_get _ _) as [n|]; [destruct (String.eqb n "")|];
        discriminate.
  - intros H. inversion H; subst; simpl. split; [reflexivity|discriminate].
Qed.

Lemma after_in_step (k : nat) :
  forall fr fr', after k fr = Some fr' -> in_step fr ->
    in_step fr' /\ visited fr' = (k + visited fr)%nat /\
    run_status (run fr') = run_status (run fr).
Proof.
  induction k as [|k IH]; simpl; intros fr fr' H Hin.
  - inversion H; subst. auto.
  - destruct (String.eqb (current fr) ""); [discriminate|].
    destruct (loop_body fr) as [fr1| |] eqn:Hb; try discriminate.
    apply loop_body_Next in Hb as (Hin1 & Hv & Hs & _).
    destruct (IH _ _ H Hin1) as (Hin' & Hv' & Hs').
    repeat split; try apply Hin'; [lia | congruence].
Qed.

(** Once [k] passes have completed, the rest of the run is the loop
    resumed from the frame they lead to. *)
Lemma run_loop_after (k : nat) :
  forall budget fr fr', after k fr = Some fr' ->
    run_loop (k + budget) fr = run_loop budget fr'.
Proof.
  induction k as [|k IH]; simpl; intros budget fr fr' H.
  - now inversion H.
  - destruct (String.eqb (current fr) ""); [discriminate|].
    destruct (loop_body fr) as [fr1| |]; try discriminate.
    now apply IH.
Qed.

Lemma normal_finish_steps (fr : frame) :
  steps (normal_finish fr) = visited fr /\
  how (normal_finish fr) = Returned.
Proof. unfold normal_finish. now destruct (negb _). Qed.

Lemma normal_finish_status (fr : frame) :
  run_status (run fr) <> failed ->
  normal_finish fr =
    {| final_run := {| run_state := state fr;
                       run_log := log fr ++ [ExecutionFinished];
                       run_status := finished |};
       steps := visited fr; how := Returned |}.
Proof.
  unfold normal_finish. intros H.
  destruct (run_status (run fr)); simpl; try reflexivity; congruence.
Qed.

(** The loop never counts more passes than its budget allows. *)
Lemma run_loop_steps (budget : nat) :
  forall fr, (steps (run_loop budget fr) <= budget + visited fr)%nat.
Proof.
  induction budget as [|b IH]; simpl; intros fr.
  - now rewrite (proj1 (normal_finish_steps fr)).
  - destruct (String.eqb (current fr) "").
    + rewrite (proj1 (normal_finish_steps fr)). lia.
    + destruct (loop_body fr) as [fr1|fr1|res] eqn:Hb.
      * apply loop_body_Next in Hb as (_ & Hv & _).
        specialize (IH fr1). lia.
      * apply loop_body_Break in Hb as (_ & Hv & _).
        rewrite (proj1 (normal_finish_steps fr1)). lia.
      * apply loop_body_Halt in Hb as [Hs _]. lia.
Qed.

(** Without a loop condition nothing escapes the loop: the call returns
    and the status it leaves is terminal. *)
Lemma run_loop_returns (budget : nat) :
  loop_condition graph = None ->
  forall fr, how (run_loop budget fr) = Returned.
Proof.
  intros Hnone. induction budget as [|b IH]; simpl; intros fr.
  - apply normal_finish_steps.
  - destruct (String.eqb (current fr) ""); [apply normal_finish_steps|].
    destruct (loop_body fr) as [fr1|fr1|res] eqn:Hb; auto.
    + apply normal_finish_steps.
    + revert Hb. unfold loop_body, _condition_satisfied.
      rewrite Hnone.
      destruct (tool_for _ _) as [tool_fn|].
      2:{ intros H. now inversion H. }
      destruct (tool_fn _) as [st result|st e].
      2:{ intros H. now inversion H. }
      destruct (py_eq _ _).
      * intros H. now inversion H.
      * destruct (str_get _ _) as [n|]; [destruct (String.eqb n "")|];
          discriminate.
Qed.

Lemma run_loop_terminal (budget : nat) :
  forall fr, how (run_loop budget fr) = Returned ->
    run_status (final_run (run_loop budget fr)) = finished \/
    run_status (final_run (run_loop budget fr)) = failed.
Proof.
  assert (Hfin : forall fr,
            run_status (final_run (normal_finish fr)) = finished \/
            run_status (final_run (normal_finish fr)) = failed).
  { intros fr. unfold normal_finish.
    destruct (run_status (run fr)) eqn:E; simpl; auto. }
  induction budget as [|b IH]; simpl; intros fr Hhow; auto.
  destruct (String.eqb (current fr) ""); auto.
  destruct (loop_body fr) as [fr1|fr1|res] eqn:Hb; auto.
  apply loop_body_Halt in Hb as [_ Ht]. auto.
Qed.
End Loop.

(** ** The executor's contract *)

Lemma run_loop_pass (tools : registry) (graph : GraphDef)
    (budget : nat) (fr : frame) (res : exec_result) :
  current fr <> "" ->
  loop_body tools graph fr = Halt res ->
  run_loop tools graph (S budget) fr = res.
Proof.
  intros Hcur Hb. simpl.
  destruct (String.eqb_spec (current fr) ""); [contradiction|].
  now rewrite Hb.
Qed.

(** From [k] completed passes and a pass [k+1] that halts, the whole
    run. *)
Lemma execute_halts_at (tools : registry) (graph : GraphDef)
    (max_steps k : nat) (r : RunRecord) (fr : frame) (res : exec_result) :
  after tools graph k (entry graph r) = Some fr ->
  (k < max_steps)%nat ->
  current fr <> "" ->
  loop_body tools graph fr = Halt res ->
  execute tools graph max_steps r = res.
Proof.
  intros Hk Hlt Hcur Hb. unfold execute.
  replace max_steps with (k + S (max_steps - S k))%nat by lia.
  rewrite (run_loop_after tools graph k _ _ _ Hk).
  now apply run_loop_pass.
Qed.

(** C1 (immediate loop-stop).  When the node executed at step [k+1]
    produces a state on which the loop condition is satisfied, the run is
    marked finished at that very step, with that state, and no further
    node is executed. *)
Theorem loop_stop_is_immediate (tools : registry) (graph : GraphDef)
    (max_steps k : nat) (r : RunRecord) (fr : frame)
    (tool_fn : Tool value) (st result metric_val : value) :
  after tools graph k (entry graph r) = Some fr ->
  (k < max_steps)%nat ->
  current fr <> "" ->
  tool_for tools (str_get (current fr) (nodes graph)) = Some tool_fn ->
  tool_fn (state fr) = Returns st result ->
  _condition_satisfied graph (if is_none result then st else result)
    = Ok (true, metric_val) ->
  execute tools graph max_steps r =
    {| final_run :=
         {| run_state := if is_none result then st else result;
            run_log :=
              log fr ++
              [RunningNode (current fr) (str_get (current fr) (nodes graph));
               LoopStop (loop_condition graph) metric_val];
            run_status := finished |};
       steps := S k;
       how := Returned |}.
Proof.
  intros Hk Hlt Hcur Htool Hret Hcond.
  destruct (after_in_step tools graph k _ _ Hk (in_step_entry graph r))
    as (_ & Hv & _). simpl in Hv.
  apply (execute_halts_at tools graph max_steps k r fr); auto.
  unfold loop_body. rewrite Htool, Hret, Hcond.
  unfold set_state, set_log, set_status; simpl.
  rewrite <- app_assoc. simpl. do 3 f_equal. lia.
Qed.


Lemma loop_stop_is_immediate_witness :
  let res := execute TOOLS clip_loop MAX_STEPS (new_run clip_loop_state) in
  steps res = 3%nat /\ run_status (final_run res) = finished /\
  how res = Returned.
Proof.
  cbv zeta.
  erewrite loop_stop_is_immediate with (k := 2%nat);
    [ | reflexivity | unfold MAX_STEPS; lia | discriminate
      | reflexivity | reflexivity | reflexivity ].
  repeat split.
Defined.



(** A node whose name is the empty string is never run: the loop guard
    fails at once and the run is finished after no step. *)
Lemma empty_start_node_runs_nothing (tools : registry) (graph : GraphDef)
    (max_steps : nat) (r : RunRecord) :
  start_node graph = "" ->
  run_status r <> failed ->
  execute tools graph max_steps r =
    {| final_run := {| run_state := run_state r;
                       run_log := run_log r ++ [ExecutionFinished];
                       run_status := finished |};
       steps := 0; how := Returned |}.
Proof.
  intros Hstart Hrun. unfold execute.
  destruct max_steps as [|n]; simpl; rewrite ?Hstart; simpl;
    now rewrite normal_finish_status.
Qed.

(** ** The registered tools write last

    Each of the four tools computes on what it reads and assigns one key
    of the state as its last statement before [return state]: when it
    raises, the state object is as it was handed over. *)

Lemma reads_only_lift {A} (p : py A) : reads_only (lift p).
Proof. intros s. unfold lift. now destruct p. Qed.

Lemma reads_only_state_get (k : string) (default : value) :
  reads_only (state_get k default).
Proof. intros s. unfold state_get. apply reads_only_lift. Qed.

Lemma reads_only_ret {A} (a : A) : reads_only (tool_ret a).
Proof. now intros s. Qed.

Lemma reads_only_bind {A B} (m : Tool A) (k : A -> Tool B) :
  reads_only m -> (forall a, reads_only (k a)) -> reads_only (tool_bind m k).
Proof.
  intros Hm Hk s. unfold tool_bind. specialize (Hm s).
  destruct (m s) as [st a|st e]; subst; [apply Hk | reflexivity].
Qed.

Lemma untouched_bind {A B} (m : Tool A) (k : A -> Tool B) :
  reads_only m -> (forall a, untouched_on_raise (k a)) ->
  untouched_on_raise (tool_bind m k).
Proof.
  intros Hm Hk s st e. unfold tool_bind. specialize (Hm s).
  destruct (m s) as [s' a|s' e']; subst.
  - apply Hk.
  - intros H. now inversion H.
Qed.

Lemma untouched_assign_return (k : string) (v : value) :
  untouched_on_raise (tool_bind (state_setitem k v) (fun _ => the_state)).
Proof.
  intros s st e. unfold tool_bind, state_setitem, the_state.
  destruct s; intros H; now inversion H.
Qed.

Lemma untouched_lift {A} (p : py A) : untouched_on_raise (lift p).
Proof.
  intros s st e H. pose proof (reads_only_lift p s) as Hs.
  now rewrite H in Hs.
Qed.

Ltac tool_steps :=
  repeat first
    [ apply untouched_assign_return
    | apply untouched_bind;
      [ first [ apply reads_only_state_get | apply reads_only_lift ] | intros ? ]
    | match goal with
      | p : (_ * _)%type |- _ => destruct p
      end ].

Lemma profile_untouched : untouched_on_raise profile_data_tool.
Proof. unfold profile_data_tool. tool_steps. Qed.

Lemma detect_anomalies_untouched : untouched_on_raise detect_anomalies_tool.
Proof. unfold detect_anomalies_tool. tool_steps. Qed.

Lemma generate_rules_untouched : untouched_on_raise generate_rules_tool.
Proof.
  unfold generate_rules_tool. tool_steps.
  apply untouched_bind; [|intros; apply untouched_assign_return].
  match goal with |- reads_only (if ?b then _ else _) => destruct b end.
  - apply reads_only_bind; [apply reads_only_state_get|intros bounds].
    apply reads_only_bind; [apply reads_only_lift|intros [low high]].
    apply reads_only_ret.
  - apply reads_only_ret.
Qed.

Lemma apply_rules_untouched : untouched_on_raise apply_rules_tool.
Proof. unfold apply_rules_tool. tool_steps. Qed.

Lemma TOOLS_untouched (name : string) (tool_fn : Tool value) :
  TOOLS name = Some tool_fn -> untouched_on_raise tool_fn.
Proof.
  unfold TOOLS.
  repeat match goal with
         | |- (if ?b then _ else _) = _ -> _ => destruct b
         end; intros H; inversion H; subst.
  - apply profile_untouched.
  - apply detect_anomalies_untouched.
  - apply generate_rules_untouched.
  - apply apply_rules_untouched.
Qed.

(** C8 (tool failure).  When the tool of the node reached after [k]
    completed passes raises, the exception is caught: it is logged with
    the tool's name, the run ends failed at step [k+1] and returns, and
    the record holds the state that entered the node, which is the state
    the last successful node produced. *)
Theorem tool_failure_keeps_last_state (graph : GraphDef) (k : nat)
    (r : RunRecord) (fr : frame) (tool_fn : Tool value)
    (st : value) (e : exn) :
  after TOOLS graph k (entry graph r) = Some fr ->
  (k < MAX_STEPS)%nat ->
  current fr <> "" ->
  tool_for TOOLS (str_get (current fr) (nodes graph)) = Some tool_fn ->
  tool_fn (state fr) = Raises st e ->
  execute_graph graph r =
    {| final_run :=
         {| run_state := state fr;
            run_log :=
              log fr ++
              [RunningNode (current fr) (str_get (current fr) (nodes graph));
               ExceptionIn (str_get (current fr) (nodes graph)) e];
            run_status := failed |};
       steps := S k;
       how := Returned |}.
Proof.
  intros Hk Hlt Hcur Htool Hraise.
  destruct (after_in_step TOOLS graph k _ _ Hk (in_step_entry graph r))
    as (_ & Hv & _). simpl in Hv.
  assert (Hst : st = state fr).
  { destruct (str_get (current fr) (nodes graph)) as [name|];
      [|discriminate].
    exact (TOOLS_untouched name tool_fn Htool _ _ _ Hraise). }
  apply (execute_halts_at TOOLS graph MAX_STEPS k r fr); auto.
  unfold loop_body. rewrite Htool, Hraise, Hst.
  unfold set_state, set_log, set_status; simpl.
  rewrite <- app_assoc. simpl. do 2 f_equal. lia.
Qed.

Lemma tool_failure_keeps_last_state_witness :
  let res := execute_graph pipeline (new_run mixed_state) in
  run_status (final_run res) = failed /\ steps res = 2%nat /\
  run_state (final_run res) =
    VDict [("data", VList [VInt 1; VStr "x"]);
           ("profile", VDict [("rows", VInt 2); ("nulls", VInt 0)])] /\
  run_log (final_run res) =
    [RunningNode "profile" (Some "profile");
     RunningNode "detect_anomalies" (Some "detect_anomalies");
     ExceptionIn (Some "detect_anomalies") TypeError].
Proof.
  cbv zeta.
  erewrite tool_failure_keeps_last_state with (k := 1%nat);
    [ | reflexivity | unfold MAX_STEPS; lia | discriminate
      | reflexivity | reflexivity ].
  repeat split.
Defined.

(** The guarantee is one of the registered tools, not of the loop: the
    [except] branch stores whatever the state object holds, so a tool
    that assigns before it raises has its assignment persisted. *)
Lemma partial_write_is_persisted :
  run_state
    (final_run
       (execute demo_tools (self_loop "spoil" None) MAX_STEPS
          (new_run no_metric_state)))
    = VDict [("dirty", VInt 1)].
Proof. reflexivity. Qed.

(** C9 (step budget).  A run passes through the loop body at most 200
    times; without a loop condition [execute_graph] returns with a
    terminal status; and a run whose 200 passes all asked for another
    leaves the loop by the cap and is marked finished, not failed. *)
Theorem step_budget (tools : registry) (graph : GraphDef) (r : RunRecord) :
  let res := execute tools graph MAX_STEPS r in
  (steps res <= 200)%nat /\
  (loop_condition graph = None ->
   how res = Returned /\
   (run_status (final_run res) = finished \/
    run_status (final_run res) = failed)) /\
  (forall fr,
     after tools graph MAX_STEPS (entry graph r) = Some fr ->
     run_status r <> failed ->
     res = {| final_run :=
                {| run_state := state fr;
                   run_log := log fr ++ [ExecutionFinished];
                   run_status := finished |};
              steps := 200;
              how := Returned |}).
Proof.
  cbv zeta. unfold execute. repeat split.
  - pose proof (run_loop_steps tools graph MAX_STEPS (entry graph r)) as H.
    change (visited (entry graph r)) with 0%nat in H.
    now rewrite Nat.add_0_r in H.
  - now apply run_loop_returns.
  - apply run_loop_terminal. now apply run_loop_returns.
  - intros fr Hafter Hst.
    destruct (after_in_step tools graph _ _ _ Hafter (in_step_entry graph r))
      as (_ & Hv & Hs). simpl in Hv, Hs.
    replace MAX_STEPS with (MAX_STEPS + 0)%nat at 1 by lia.
    rewrite (run_loop_after tools graph _ _ _ _ Hafter). simpl.
    rewrite normal_finish_status by congruence.
    rewrite Hv. unfold MAX_STEPS. do 2 f_equal.
Qed.

Lemma step_budget_witness :
  let res :=
    execute demo_tools (self_loop "tick" None) MAX_STEPS
      (new_run (VDict [])) in
  (steps res <= 200)%nat /\
  how res = Returned /\
  run_status (final_run res) = finished /\
  run_state (final_run res) = VDict [("n", VInt 200)].
Proof.
  cbv zeta.
  destruct (step_budget demo_tools (self_loop "tick" None)
              (new_run (VDict []))) as (Hle & Hret & Hcap).
  split; [exact Hle|].
  split; [exact (proj1 (Hret eq_refl))|].
  assert (Hrun : run_status (new_run (VDict [])) <> failed) by discriminate.
  assert (Hafter : exists fr,
            after demo_tools (self_loop "tick" None) MAX_STEPS
              (entry (self_loop "tick" None) (new_run (VDict []))) = Some fr
            /\ state fr = VDict [("n", VInt 200)]).
  { vm_compute. eexists. split; reflexivity. }
  destruct Hafter as (fr & Hafter & Hstate).
  rewrite (Hcap fr Hafter Hrun). split; [reflexivity|exact Hstate].
Defined.

(** C3, as the code has it.  On a single node, whose name is not the
    empty string, bound to a tool that returns the state it is handed,
    with an edge to itself, the first pass already finds the state equal
    to the snapshot taken before the loop: the run is finished at step 1,
    whatever the step cap (at least one), provided the loop condition, if
    any, evaluates without raising. *)
Theorem identity_self_loop_stops_at_step_1 (tools : registry)
    (node name : string) (tool_fn : Tool value) (cond : option dict)
    (max_steps : nat) (r : RunRecord) (satisfied : bool) (metric_val : value) :
  let graph := {| nodes := [(node, name)]; edges := [(node, node)];
                  start_node := node; loop_condition := cond |} in
  node <> "" ->
  tools name = Some tool_fn ->
  (forall s, tool_fn s = Returns s s) ->
  wf_value (run_state r) = true ->
  _condition_satisfied graph (run_state r) = Ok (satisfied, metric_val) ->
  (0 < max_steps)%nat ->
  let res := execute tools graph max_steps r in
  how res = Returned /\ steps res = 1%nat /\
  run_status (final_run res) = finished /\
  run_state (final_run res) = run_state r.
Proof.
  intros graph Hnode Htool Hid Hwf Hcond Hcap res. subst res.
  assert (Hif : forall s : value, (if is_none s then s else s) = s)
    by (intros s; now destruct (is_none s)).
  assert (Hhalt : exists res,
             loop_body tools graph (entry graph r) = Halt res /\
             how res = Returned /\ steps res = 1%nat /\
             run_status (final_run res) = finished /\
             run_state (final_run res) = run_state r).
  { unfold loop_body. simpl. rewrite String.eqb_refl. simpl.
    rewrite Htool, Hid, Hif, Hcond.
    destruct satisfied.
    - eexists. split; [reflexivity|]. now repeat split.
    - rewrite (py_eq_refl _ Hwf).
      eexists. split; [reflexivity|]. now repeat split. }
  destruct Hhalt as (res & Hbody & Hres).
  rewrite (execute_halts_at tools graph max_steps 0 r (entry graph r) res);
    auto.
Qed.

Lemma identity_self_loop_stops_at_step_1_witness :
  let res :=
    execute demo_tools (self_loop "noop" None) MAX_STEPS
      (new_run scenario_state) in
  how res = Returned /\ steps res = 1%nat /\
  run_status (final_run res) = finished /\
  run_state (final_run res) = scenario_state.
Proof.
  apply (identity_self_loop_stops_at_step_1 demo_tools "a" "noop" the_state
           None MAX_STEPS (new_run scenario_state) false VNone);
    [ discriminate | reflexivity | reflexivity | reflexivity | reflexivity
    | unfold MAX_STEPS; lia ].
Defined.

(** C3, as the claim has it, fails: the identity self-loop is finished at
    step 1, so it is not finished at step 2. *)
Lemma identity_self_loop_not_at_step_2 :
  let res :=
    execute demo_tools (self_loop "noop" None) MAX_STEPS
      (new_run scenario_state) in
  run_status (final_run res) = finished /\ steps res = 1%nat /\
  steps res <> 2%nat.
Proof.
  cbv zeta. split; [reflexivity|]. split; [reflexivity|].
  vm_compute. discriminate.
Qed.

(** C2 (end-to-end scenario).  The linear pipeline on data=[1, None, 150]
    with bounds (0, 100) returns finished after its four nodes, with the
    data filled and clipped, the profile, the anomalies, and both
    rules. *)
Theorem pipeline_scenario :
  let res := execute_graph pipeline (new_run scenario_state) in
  let final := run_state (final_run res) in
  how res = Returned /\
  run_status (final_run res) = finished /\
  steps res = 4%nat /\
  getitem final "data" = Ok (VList [VInt 1; VInt 0; VInt 100]) /\
  getitem final "profile" =
    Ok (VDict [("rows", VInt 3); ("nulls", VInt 1)]) /\
  getitem final "anomalies" =
    Ok (VDict [("count", VInt 1); ("values", VList [VInt 150])]) /\
  getitem final "rules" =
    Ok (VList [fill_null_rule; clip_rule_of (VInt 0) (VInt 100)]) /\
  getitem final "anomaly_bounds" = Ok (VList [VInt 0; VInt 100]).
Proof. cbv zeta. vm_compute. repeat split. Qed.

(** ** The metric resolver *)

Lemma walk_none (parts : list string) : walk VNone parts = Ok VNone.
Proof. now destruct parts. Qed.

(** Where the specification finds a value, so does the code. *)
Lemma walk_present (parts : list string) :
  forall cur v, spec_resolve cur parts = Present v -> walk cur parts = Ok v.
Proof.
  induction parts as [|p rest IH]; simpl; intros cur v H.
  - now inversion H.
  - destruct cur as [| | | |d]; try discriminate. simpl.
    destruct (dict_get p d) as [w|]; [|discriminate]. now apply IH.
Qed.

(** Where the specification says absent, the code returns [None] when it
    returns at all; it raises [AttributeError] otherwise. *)
Lemma walk_absent (parts : list string) :
  forall cur, spec_resolve cur parts = Absent ->
    walk cur parts = Ok VNone \/ walk cur parts = Err AttributeError.
Proof.
  induction parts as [|p rest IH]; simpl; intros cur H; [discriminate|].
  destruct cur as [| | | |d]; simpl; auto.
  destruct (dict_get p d) as [w|]; [now apply IH|].
  left. apply walk_none.
Qed.

(** C4, at the failing input.  On a state whose [anomalies] entry is a
    number, resolving "anomalies.count" raises [AttributeError], although
    the specification's resolver answers absent there. *)
Theorem resolver_raises_on_non_mapping :
  spec_resolve scalar_state (split_dot "anomalies.count") = Absent /\
  _resolve_metric scalar_state (VStr "anomalies.count") = Err AttributeError.
Proof. split; reflexivity. Qed.

(** The exception is raised outside the [try] of the loop: it leaves
    [execute_graph], and the run stays in status [running]. *)
Lemma unresolvable_metric_escapes :
  let res := execute_graph list_metric_graph (new_run scenario_state) in
  how res = Uncaught AttributeError /\
  run_status (final_run res) = running /\ steps res = 1%nat.
Proof. cbv zeta. vm_compute. repeat split. Qed.

Lemma condition_on_none (graph : GraphDef) (cond : dict)
    (path : string) (op target snap : value) :
  loop_condition graph = Some cond ->
  dict_get "metric" cond = Some (VStr path) ->
  dict_get "op" cond = Some op ->
  dict_get "value" cond = Some target ->
  _resolve_metric snap (VStr path) = Ok VNone ->
  _condition_satisfied graph snap = Ok (false, VNone).
Proof.
  intros Hc Hm Hop Hv Hr. unfold _condition_satisfied. rewrite Hc.
  destruct cond as [|kv cond']; [discriminate|].
  cbn [truthy negb getitem]. rewrite Hm. cbn [py_bind].
  rewrite Hr. cbn [py_bind]. rewrite Hop, Hv. reflexivity.
Qed.

(** Past a missing key the walk carries [None], and the guard of the
    loop returns it at the next segment. *)
Lemma walk_key_missing (parts : list string) :
  forall cur, key_missing cur parts = true -> walk cur parts = Ok VNone.
Proof.
  induction parts as [|p rest IH]; simpl; intros cur H; [discriminate|].
  destruct cur as [| | | |d]; try discriminate; simpl; [reflexivity|].
  destruct (dict_get p d) as [v|]; [now apply IH|apply walk_none].
Qed.

(** C5, as the code has it.  For a loop condition that carries its
    metric, an op and a value: a metric that is present with value null
    resolves to [None], which is also what the metric resolves to in a
    state where a key of its path is missing; the condition evaluator
    answers (False, None) in both states, so the two are not told
    apart. *)
Theorem null_metric_resolves_like_absent (graph : GraphDef) (cond : dict)
    (path : string) (op target s s' : value) :
  loop_condition graph = Some cond ->
  dict_get "metric" cond = Some (VStr path) ->
  dict_get "op" cond = Some op ->
  dict_get "value" cond = Some target ->
  spec_resolve s (split_dot path) = Present VNone ->
  key_missing s' (split_dot path) = true ->
  _resolve_metric s (VStr path) = Ok VNone /\
  _resolve_metric s' (VStr path) = Ok VNone /\
  _condition_satisfied graph s = Ok (false, VNone) /\
  _condition_satisfied graph s' = Ok (false, VNone).
Proof.
  intros Hc Hm Hop Hv Hs Hs'.
  assert (Hr : _resolve_metric s (VStr path) = Ok VNone)
    by (now apply walk_present).
  assert (Hr' : _resolve_metric s' (VStr path) = Ok VNone)
    by (now apply walk_key_missing).
  repeat split; auto; eapply condition_on_none; eauto.
Qed.

Lemma null_metric_resolves_like_absent_witness :
  _resolve_metric null_count_state (VStr "anomalies.count") = Ok VNone /\
  _resolve_metric no_metric_state (VStr "anomalies.count") = Ok VNone /\
  _condition_satisfied clip_loop null_count_state = Ok (false, VNone) /\
  _condition_satisfied clip_loop no_metric_state = Ok (false, VNone).
Proof.
  eapply (null_metric_resolves_like_absent clip_loop _ "anomalies.count");
    [ reflexivity | reflexivity | reflexivity | reflexivity
    | reflexivity | reflexivity ].
Defined.

(** C5, as the claim has it, fails: a present null and a missing metric
    give the same resolver result and the same evaluator answer. *)
Lemma present_null_not_distinguished :
  spec_resolve null_metric_state (split_dot "m") = Present VNone /\
  spec_resolve no_metric_state (split_dot "m") = Absent /\
  _resolve_metric null_metric_state (VStr "m") =
    _resolve_metric no_metric_state (VStr "m") /\
  _condition_satisfied metric_m_graph null_metric_state =
    _condition_satisfied metric_m_graph no_metric_state.
Proof. repeat split. Qed.

(** ** [apply_rules] *)

Lemma apply_rules_on_dict (d : dict) (data rules : value)
    (items new_data : list value) :
  get_method (VDict d) "data" (VList []) = Ok data ->
  get_method (VDict d) "rules" (VList []) = Ok rules ->
  py_iter data = Ok items ->
  map_py (apply_to_entry rules) items = Ok new_data ->
  apply_rules_tool (VDict d) =
    Returns (VDict (dict_set "data" (VList new_data) d))
            (VDict (dict_set "data" (VList new_data) d)).
Proof.
  intros Hd Hr Hi Hm.
  unfold apply_rules_tool, tool_bind, state_get, lift, state_setitem,
    the_state.
  now rewrite Hd, Hr, Hi, Hm.
Qed.

(** C10 (frame of apply_rules).  A call of [apply_rules] that returns has
    assigned the key [data] of the state dict and nothing else: every
    other key is bound as before, and the dict returned is the state
    object itself. *)
Theorem apply_rules_frame (s st result : value) :
  apply_rules_tool s = Returns st result ->
  result = st /\
  exists d new_data,
    s = VDict d /\ st = VDict (dict_set "data" new_data d) /\
    forall k, k <> "data" ->
      dict_get k (dict_set "data" new_data d) = dict_get k d.
Proof.
  unfold apply_rules_tool, tool_bind, state_get, lift, state_setitem,
    the_state.
  destruct s as [| | | |d]; simpl; try discriminate.
  destruct (py_iter _) as [items|]; [|discriminate].
  destruct (map_py _ items) as [new_data|]; [|discriminate].
  intros H. inversion H; subst; clear H. split; [reflexivity|].
  exists d, (VList new_data). repeat split.
  intros k Hk. now apply dict_get_set_other.
Qed.

Lemma apply_rules_frame_witness :
  exists d new_data,
    rules_0_100_state = VDict d /\
    rules_0_100_applied = VDict (dict_set "data" new_data d) /\
    forall k, k <> "data" ->
      dict_get k (dict_set "data" new_data d) = dict_get k d.
Proof.
  exact (proj2 (apply_rules_frame rules_0_100_state rules_0_100_applied
                  rules_0_100_applied eq_refl)).
Defined.

(** On data that is already filled and clipped (integers only, each
    within the bounds of the clip rule when there is one) [apply_rules]
    leaves the whole state as it is. *)
Lemma apply_rules_noop_on_clean_data (d : dict) (xs : list Z)
    (rules clip : value) :
  dict_get "data" d = Some (VList (map VInt xs)) ->
  get_method (VDict d) "rules" (VList []) = Ok rules ->
  find_rule "clip" rules = Ok clip ->
  (truthy clip = false \/
   exists lo hi, getitem clip "low" = Ok (VInt lo) /\
                 getitem clip "high" = Ok (VInt hi) /\
                 Forall (fun x => lo <= x <= hi) xs) ->
  apply_rules_tool (VDict d) = Returns (VDict d) (VDict d).
Proof.
  intros Hd Hr Hc Hclean.
  assert (Hm : map_py (apply_to_entry rules) (map VInt xs)
               = Ok (map VInt xs)).
  { assert (Hall : Forall (fun x => apply_to_entry rules (VInt x)
                                    = Ok (VInt x)) xs).
    { unfold apply_to_entry. cbn [is_none]. rewrite Hc. cbn [py_bind].
      destruct Hclean as [Hno|(lo & hi & Hlo & Hhi & Hin)].
      - rewrite Hno. now apply Forall_forall.
      - destruct (truthy clip); [|now apply Forall_forall].
        rewrite Hlo, Hhi. cbn [py_bind].
        revert Hin. apply Forall_impl. intros x Hx.
        unfold py_min, py_max. simpl.
        destruct (Z.ltb_spec x hi); simpl.
        + destruct (Z.gtb_spec x lo); [reflexivity|].
          do 2 f_equal. lia.
        + assert (x = hi) by lia. subst.
          destruct (Z.gtb_spec hi lo); [reflexivity|].
          do 2 f_equal. lia. }
    clear Hd Hclean.
    induction Hall as [|x xs' Hx _ IH]; simpl; [reflexivity|].
    now rewrite Hx, IH. }
  rewrite (apply_rules_on_dict d (VList (map VInt xs)) rules
             (map VInt xs) (map VInt xs)); auto.
  - now rewrite dict_set_same_value.
  - simpl. now rewrite Hd.
Qed.

Lemma clamp_int (lo hi x : Z) :
  (m <- py_min (VInt hi) (VInt x) ;; py_max (VInt lo) m)%py =
    Ok (VInt (if Z.gtb (if Z.ltb x hi then x else hi) lo
              then (if Z.ltb x hi then x else hi) else lo)).
Proof.
  unfold py_min, py_max. simpl.
  destruct (Z.ltb x hi); simpl;
    match goal with |- context [Z.gtb ?a ?b] => destruct (Z.gtb a b) end;
    reflexivity.
Qed.

Lemma clamp_int_fixed (lo hi x : Z) :
  lo <= x <= hi ->
  (m <- py_min (VInt hi) (VInt x) ;; py_max (VInt lo) m)%py = Ok (VInt x).
Proof.
  intros H. rewrite clamp_int. do 2 f_equal.
  destruct (Z.ltb_spec x hi); destruct (Z.gtb_spec x lo);
    try destruct (Z.gtb_spec hi lo); lia.
Qed.

Lemma clamp_int_idem (lo hi x : Z) :
  let c := if Z.gtb (if Z.ltb x hi then x else hi) lo
           then (if Z.ltb x hi then x else hi) else lo in
  (m <- py_min (VInt hi) (VInt c) ;; py_max (VInt lo) m)%py = Ok (VInt c).
Proof.
  cbv zeta. rewrite clamp_int. do 2 f_equal.
  destruct (Z.ltb_spec x hi); destruct (Z.gtb_spec x lo);
    try destruct (Z.gtb_spec hi lo);
    repeat match goal with
           | |- context [Z.ltb ?a ?b] => destruct (Z.ltb_spec a b)
           | |- context [Z.gtb ?a ?b] => destruct (Z.gtb_spec a b)
           end; lia.
Qed.

(** Under [fill_fits_clip], what the loop body appends for a nullable
    integer is an entry that the loop body leaves as it is. *)
Lemma apply_to_entry_settles (rules fill clip v : value) :
  find_rule "fill_null" rules = Ok fill ->
  find_rule "clip" rules = Ok clip ->
  fill_fits_clip fill clip = true ->
  int_or_none v = true ->
  exists w, apply_to_entry rules v = Ok w /\ apply_to_entry rules w = Ok w.
Proof.
  intros Hf Hc Hfit Hv. unfold fill_fits_clip in Hfit.
  assert (Hnone : forall w, is_none w = true -> w = VNone)
    by (intros []; simpl; congruence).
  destruct v as [|x| | |]; try discriminate; unfold apply_to_entry at 1;
    cbn [is_none]; [rewrite Hf|rewrite Hc]; cbn [py_bind].
  - (* a null entry *)
    destruct (truthy fill) eqn:Tf.
    2:{ exists VNone. split; [reflexivity|].
        unfold apply_to_entry. cbn [is_none]. rewrite Hf. cbn [py_bind].
        now rewrite Tf. }
    destruct (truthy clip) eqn:Tc.
    + destruct (getitem clip "low") as [[|lo| | |]|] eqn:Hlo;
        try discriminate.
      destruct (getitem clip "high") as [[|hi| | |]|] eqn:Hhi;
        try discriminate.
      destruct (getitem fill "value") as [[|z| | |]|] eqn:Hval;
        try discriminate.
      * exists VNone. split; [reflexivity|].
        unfold apply_to_entry. cbn [is_none]. rewrite Hf. cbn [py_bind].
        now rewrite Tf.
      * exists (VInt z). split; [reflexivity|].
        unfold apply_to_entry. cbn [is_none]. rewrite Hc. cbn [py_bind].
        rewrite Tc, Hlo. cbn [py_bind]. rewrite Hhi. cbn [py_bind].
        apply clamp_int_fixed.
        apply andb_true_iff in Hfit as [H1 H2].
        apply Z.leb_le in H1, H2. lia.
    + destruct (getitem fill "value") as [w|] eqn:Hval; [|discriminate].
      exists w. split; [reflexivity|].
      unfold apply_to_entry. destruct (is_none w) eqn:Nw.
      * rewrite Hf. cbn [py_bind]. now rewrite Tf.
      * rewrite Hc. cbn [py_bind]. now rewrite Tc.
  - (* an integer entry *)
    destruct (truthy clip) eqn:Tc.
    2:{ exists (VInt x). split; [reflexivity|].
        unfold apply_to_entry. cbn [is_none]. rewrite Hc. cbn [py_bind].
        now rewrite Tc. }
    destruct (getitem clip "low") as [[|lo| | |]|] eqn:Hlo;
      try discriminate.
    destruct (getitem clip "high") as [[|hi| | |]|] eqn:Hhi;
      try discriminate.
    cbn [py_bind]. rewrite clamp_int. eexists. split; [reflexivity|].
    unfold apply_to_entry. cbn [is_none]. rewrite Hc. cbn [py_bind].
    rewrite Tc, Hlo. cbn [py_bind]. rewrite Hhi. cbn [py_bind].
    apply clamp_int_idem.
Qed.

Lemma map_py_settles (f : value -> py value) (items : list value) :
  Forall (fun v => exists w, f v = Ok w /\ f w = Ok w) items ->
  exists ws, map_py f items = Ok ws /\ map_py f ws = Ok ws.
Proof.
  induction 1 as [|v items (w & Hw & Hww) _ (ws & Hws & Hwws)].
  - now exists [].
  - exists (w :: ws). simpl. now rewrite Hw, Hws, Hww, Hwws.
Qed.

(** C6, as the code has it.  On a state dict whose data is a list of
    nullable integers and whose rules are well formed, [apply_rules]
    returns, and a second application returns with the same data.  Well
    formed: the scans of [rules] for a rule named "fill_null" and for one
    named "clip" both complete without raising; the clip rule, if one is
    found, has integer [low] and [high]; the fill rule, if one is found,
    has a [value], which is null or an integer within these bounds when
    there is a clip rule, and any value when there is none. *)
Theorem apply_rules_twice_same_data (d : dict)
    (items : list value) (rules fill clip : value) :
  get_method (VDict d) "data" (VList []) = Ok (VList items) ->
  forallb int_or_none items = true ->
  get_method (VDict d) "rules" (VList []) = Ok rules ->
  find_rule "fill_null" rules = Ok fill ->
  find_rule "clip" rules = Ok clip ->
  fill_fits_clip fill clip = true ->
  exists st st',
    apply_rules_tool (VDict d) = Returns st st /\
    apply_rules_tool st = Returns st' st' /\
    getitem st' "data" = getitem st "data".
Proof.
  intros Hdata Hints Hrules Hfill Hclip Hfit.
  destruct (map_py_settles (apply_to_entry rules) items)
    as (ws & Hws & Hwws).
  { rewrite forallb_forall in Hints. apply Forall_forall. intros v Hv.
    apply (apply_to_entry_settles rules fill clip); auto. }
  set (d1 := dict_set "data" (VList ws) d).
  exists (VDict d1), (VDict (dict_set "data" (VList ws) d1)).
  split; [|split].
  - now apply (apply_rules_on_dict d (VList items) rules items ws).
  - apply (apply_rules_on_dict d1 (VList ws) rules ws ws); auto.
    + unfold d1. simpl. now rewrite dict_get_set_same.
    + unfold d1. simpl. rewrite dict_get_set_other by discriminate.
      exact Hrules.
  - simpl. unfold d1. now rewrite !dict_get_set_same.
Qed.

Lemma apply_rules_twice_same_data_witness :
  exists st st',
    apply_rules_tool rules_0_100_state = Returns st st /\
    apply_rules_tool st = Returns st' st' /\
    getitem st' "data" = getitem st "data".
Proof.
  apply (apply_rules_twice_same_data _ [VInt 1; VNone; VInt 150]
           rules_0_100 fill_null_rule
           (clip_rule_of (VInt 0) (VInt 100)));
    reflexivity.
Defined.

(** C6, as the claim has it, fails.  For data=[None, 150] and bounds
    (10, 100) the pipeline generates a fill rule with value 0 and a clip
    rule with bounds 10 and 100; [apply_rules] fills the null with 0
    without clipping it, and a second application clips that 0 to 10. *)
Lemma apply_rules_twice_differs :
  apply_rules_tool (low_bound_with [VNone; VInt 150]) =
    Returns (low_bound_with [VInt 0; VInt 100])
            (low_bound_with [VInt 0; VInt 100]) /\
  apply_rules_tool (low_bound_with [VInt 0; VInt 100]) =
    Returns (low_bound_with [VInt 10; VInt 100])
            (low_bound_with [VInt 10; VInt 100]) /\
  getitem (low_bound_with [VInt 10; VInt 100]) "data" <>
  getitem (low_bound_with [VInt 0; VInt 100]) "data".
Proof. repeat split. discriminate. Qed.

(** The state of the counterexample is the one the pipeline itself
    produces and hands to its last node. *)
Lemma low_bound_state_reached :
  after TOOLS pipeline 3 (entry pipeline (new_run low_bound_state)) =
    Some {| current := "apply_rules"; visited := 3;
            state := low_bound_with [VNone; VInt 150];
            prev_state := low_bound_with [VNone; VInt 150];
            log := [RunningNode "profile" (Some "profile");
                    RunningNode "detect_anomalies" (Some "detect_anomalies");
                    RunningNode "generate_rules" (Some "generate_rules")];
            run := {| run_state := low_bound_with [VNone; VInt 150];
                      run_log :=
                        [RunningNode "profile" (Some "profile");
                         RunningNode "detect_anomalies"
                           (Some "detect_anomalies");
                         RunningNode "generate_rules"
                           (Some "generate_rules")];
                      run_status := running |} |} /\
  run_state (final_run (execute_graph pipeline (new_run low_bound_state)))
    = low_bound_with [VInt 0; VInt 100].
Proof. split; reflexivity. Qed.

(** * Further properties of the code *)

(** ** The registered tools, one by one *)

Lemma get_method_set_other (k k' : string) (v default : value) (d : dict) :
  k <> k' ->
  get_method (VDict (dict_set k' v d)) k default =
  get_method (VDict d) k default.
Proof. intros H. simpl. now rewrite dict_get_set_other. Qed.

Lemma dict_set_twice (k : string) (v : value) (d : dict) :
  dict_set k v (dict_set k v d) = dict_set k v d.
Proof. apply dict_set_same_value, dict_get_set_same. Qed.

Lemma TOOLS_need_a_dict (name : string) (tool_fn : Tool value) (s : value) :
  TOOLS name = Some tool_fn ->
  is_dict s = false ->
  tool_fn s = Raises s AttributeError.
Proof.
  unfold TOOLS.
  repeat match goal with
         | |- (if ?b then _ else _) = _ -> _ => destruct b
         end; intros H Hs; inversion H; subst;
    destruct s; try discriminate; reflexivity.
Qed.

(** X1.  Handed a state that is not a dict, each registered tool raises
    [AttributeError] at its first [state.get] and leaves the object as it
    is. *)
Theorem tools_raise_on_non_dict_state (name : string) (tool_fn : Tool value)
    (s : value) :
  TOOLS name = Some tool_fn ->
  is_dict s = false ->
  tool_fn s = Raises s AttributeError.
Proof.
  unfold TOOLS.
  destruct (String.eqb name "profile");
    [intros H Hs; inversion H; subst; destruct s; try discriminate;
     reflexivity|].
  destruct (String.eqb name "detect_anomalies");
    [intros H Hs; inversion H; subst; destruct s; try discriminate;
     reflexivity|].
  destruct (String.eqb name "generate_rules");
    [intros H Hs; inversion H; subst; destruct s; try discriminate;
     reflexivity|].
  destruct (String.eqb name "apply_rules"); [|discriminate].
  intros H Hs; inversion H; subst; destruct s; try discriminate;
    reflexivity.
Qed.

Lemma tools_raise_on_non_dict_state_witness :
  generate_rules_tool (VList [VInt 1; VNone]) =
    Raises (VList [VInt 1; VNone]) AttributeError.
Proof.
  apply (tools_raise_on_non_dict_state "generate_rules"); reflexivity.
Defined.

Lemma assigns_bind {A} (k : string) (m : Tool A) (f : A -> Tool value) :
  reads_only m -> (forall a, assigns k (f a)) -> assigns k (tool_bind m f).
Proof.
  intros Hm Hf s st result. unfold tool_bind. specialize (Hm s).
  destruct (m s) as [s' a|s' e]; [subst; apply Hf | discriminate].
Qed.

Lemma assigns_assign_return (k : string) (v : value) :
  assigns k (tool_bind (state_setitem k v) (fun _ => the_state)).
Proof.
  intros s st result. unfold tool_bind, state_setitem, the_state.
  destruct s as [| | | |d]; try discriminate.
  intros H. inversion H; subst. split; [reflexivity|]. now exists d, v.
Qed.

Ltac assign_steps :=
  repeat first
    [ apply assigns_assign_return
    | apply assigns_bind;
      [ first [ apply reads_only_state_get | apply reads_only_lift ] | intros ? ]
    | match goal with
      | p : (_ * _)%type |- _ => destruct p
      end ].

Lemma profile_assigns : assigns "profile" profile_data_tool.
Proof. unfold profile_data_tool. assign_steps. Qed.

Lemma detect_anomalies_assigns : assigns "anomalies" detect_anomalies_tool.
Proof. unfold detect_anomalies_tool. assign_steps. Qed.

Lemma generate_rules_assigns : assigns "rules" generate_rules_tool.
Proof.
  unfold generate_rules_tool. assign_steps.
  apply assigns_bind; [|intros; apply assigns_assign_return].
  match goal with |- reads_only (if ?b then _ else _) => destruct b end.
  - apply reads_only_bind; [apply reads_only_state_get|intros bounds].
    apply reads_only_bind; [apply reads_only_lift|intros [low high]].
    apply reads_only_ret.
  - apply reads_only_ret.
Qed.

Lemma apply_rules_assigns : assigns "data" apply_rules_tool.
Proof. unfold apply_rules_tool. assign_steps. Qed.

Lemma TOOLS_assign (name : string) (tool_fn : Tool value) :
  TOOLS name = Some tool_fn -> assigns (written_key name) tool_fn.
Proof.
  unfold TOOLS, written_key.
  repeat match goal with
         | |- (if ?b then _ else _) = _ -> _ => destruct b
         end; intros H; inversion H; subst.
  - apply profile_assigns.
  - apply detect_anomalies_assigns.
  - apply generate_rules_assigns.
  - apply apply_rules_assigns.
Qed.

(** X2.  A registered tool that returns has assigned exactly one key of
    the state dict, its own ([profile], [anomalies], [rules] or [data]):
    every other key is bound as before, none is removed, and the value
    returned is the state object. *)
Theorem tools_write_one_key (name : string) (tool_fn : Tool value)
    (s st result : value) :
  TOOLS name = Some tool_fn ->
  tool_fn s = Returns st result ->
  result = st /\
  exists d v,
    s = VDict d /\ st = VDict (dict_set (written_key name) v d) /\
    forall k, k <> written_key name ->
      dict_get k (dict_set (written_key name) v d) = dict_get k d.
Proof.
  intros Htool Hret.
  destruct (TOOLS_assign name tool_fn Htool s st result Hret)
    as (Hres & d & v & Hs & Hst).
  split; [exact Hres|]. exists d, v. repeat split; auto.
  intros k Hk. now apply dict_get_set_other.
Qed.

Lemma tools_write_one_key_witness :
  exists d v,
    scenario_state = VDict d /\
    VDict [("data", VList [VInt 1; VNone; VInt 150]);
           ("anomaly_bounds", VList [VInt 0; VInt 100]);
           ("anomalies",
            VDict [("count", VInt 1); ("values", VList [VInt 150])])]
      = VDict (dict_set "anomalies" v d) /\
    forall k, k <> "anomalies" ->
      dict_get k (dict_set "anomalies" v d) = dict_get k d.
Proof.
  exact (proj2 (tools_write_one_key "detect_anomalies" detect_anomalies_tool
                  scenario_state _ _ eq_refl eq_refl)).
Defined.

(** Stepping through a tool, forwards and backwards. *)
Lemma bind_get_ok {B} (key : string) (default a : value)
    (k : value -> Tool B) (s : value) :
  get_method s key default = Ok a ->
  tool_bind (state_get key default) k s = k a s.
Proof. intros H. unfold tool_bind, state_get, lift. now rewrite H. Qed.

Lemma bind_lift_ok {A B} (p : py A) (a : A) (k : A -> Tool B) (s : value) :
  p = Ok a -> tool_bind (lift p) k s = k a s.
Proof. intros ->. reflexivity. Qed.

Lemma bind_get_inv {B} (key : string) (default : value)
    (k : value -> Tool B) (s st : value) (b : B) :
  tool_bind (state_get key default) k s = Returns st b ->
  exists a, get_method s key default = Ok a /\ k a s = Returns st b.
Proof.
  unfold tool_bind, state_get, lift.
  destruct (get_method s key default) as [a|]; [|discriminate]. eauto.
Qed.

Lemma bind_lift_inv {A B} (p : py A) (k : A -> Tool B) (s st : value)
    (b : B) :
  tool_bind (lift p) k s = Returns st b ->
  exists a, p = Ok a /\ k a s = Returns st b.
Proof. unfold tool_bind, lift. destruct p; [eauto|discriminate]. Qed.

Lemma assign_return_inv (key : string) (v s st result : value) :
  tool_bind (state_setitem key v) (fun _ => the_state) s
    = Returns st result ->
  exists d, s = VDict d /\ st = VDict (dict_set key v d) /\ result = st.
Proof.
  unfold tool_bind, state_setitem, the_state.
  destruct s as [| | | |d]; try discriminate.
  intros H. inversion H; subst. eauto.
Qed.

Lemma assign_return_ok (key : string) (v : value) (d : dict) :
  tool_bind (state_setitem key v) (fun _ => the_state) (VDict d)
    = Returns (VDict (dict_set key v d)) (VDict (dict_set key v d)).
Proof. reflexivity. Qed.

Lemma profile_idempotent (s st result : value) :
  profile_data_tool s = Returns st result ->
  profile_data_tool st = Returns st st.
Proof.
  unfold profile_data_tool. intros H.
  apply bind_get_inv in H as (data & Hdata & H).
  apply bind_lift_inv in H as (n & Hlen & H).
  apply bind_lift_inv in H as (items & Hiter & H).
  apply assign_return_inv in H as (d & -> & -> & _).
  erewrite bind_get_ok
    by (rewrite get_method_set_other by discriminate; apply Hdata).
  erewrite bind_lift_ok by apply Hlen.
  erewrite bind_lift_ok by apply Hiter.
  rewrite assign_return_ok. now rewrite dict_set_twice.
Qed.

Lemma detect_anomalies_idempotent (s st result : value) :
  detect_anomalies_tool s = Returns st result ->
  detect_anomalies_tool st = Returns st st.
Proof.
  unfold detect_anomalies_tool. intros H.
  apply bind_get_inv in H as (data & Hdata & H).
  apply bind_get_inv in H as (bounds & Hbounds & H).
  apply bind_lift_inv in H as ([low high] & Hb & H).
  apply bind_lift_inv in H as (items & Hiter & H).
  apply bind_lift_inv in H as (anomalies & Hf & H).
  apply assign_return_inv in H as (d & -> & -> & _).
  erewrite bind_get_ok
    by (rewrite get_method_set_other by discriminate; apply Hdata).
  erewrite bind_get_ok
    by (rewrite get_method_set_other by discriminate; apply Hbounds).
  erewrite bind_lift_ok by apply Hb. cbv beta iota.
  erewrite bind_lift_ok by apply Hiter.
  erewrite bind_lift_ok by apply Hf.
  rewrite assign_return_ok. now rewrite dict_set_twice.
Qed.

Lemma bind_reads_inv {A B} (m : Tool A) (k : A -> Tool B) (s st : value)
    (b : B) :
  reads_only m ->
  tool_bind m k s = Returns st b ->
  exists a, m s = Returns s a /\ k a s = Returns st b.
Proof.
  intros Hm. unfold tool_bind. specialize (Hm s).
  destruct (m s) as [s' a|]; [subst; eauto|discriminate].
Qed.

Lemma bind_reads_ok {A B} (m : Tool A) (a : A) (k : A -> Tool B)
    (s : value) :
  m s = Returns s a -> tool_bind m k s = k a s.
Proof. intros H. unfold tool_bind. now rewrite H. Qed.

(** The second [if] of [generate_rules_tool], which reads the bounds. *)
Lemma clip_part_reads_only (has_anomalies : bool) (rules : list value) :
  reads_only
    (if has_anomalies
     then (bounds <- state_get "anomaly_bounds" default_bounds ;;
           '(low, high) <- lift (unpack2 bounds) ;;
           tool_ret (rules ++ [clip_rule_of low high]))
     else tool_ret rules)%tool.
Proof.
  destruct has_anomalies; [|apply reads_only_ret].
  apply reads_only_bind; [apply reads_only_state_get|intros bounds].
  apply reads_only_bind; [apply reads_only_lift|intros [low high]].
  apply reads_only_ret.
Qed.

Lemma clip_part_ignores_rules (has_anomalies : bool)
    (rules new_rules : list value) (v : value) (d : dict) :
  (if has_anomalies
   then (bounds <- state_get "anomaly_bounds" default_bounds ;;
         '(low, high) <- lift (unpack2 bounds) ;;
         tool_ret (rules ++ [clip_rule_of low high]))
   else tool_ret rules)%tool (VDict d) = Returns (VDict d) new_rules ->
  (if has_anomalies
   then (bounds <- state_get "anomaly_bounds" default_bounds ;;
         '(low, high) <- lift (unpack2 bounds) ;;
         tool_ret (rules ++ [clip_rule_of low high]))
   else tool_ret rules)%tool (VDict (dict_set "rules" v d))
  = Returns (VDict (dict_set "rules" v d)) new_rules.
Proof.
  destruct has_anomalies.
  - intros H.
    apply bind_get_inv in H as (bounds & Hbounds & H).
    apply bind_lift_inv in H as ([low high] & Hb & H).
    erewrite bind_get_ok
      by (rewrite get_method_set_other by discriminate; apply Hbounds).
    erewrite bind_lift_ok by apply Hb.
    unfold tool_ret in *. now inversion H.
  - unfold tool_ret. intros H. now inversion H.
Qed.

Lemma generate_rules_idempotent (s st result : value) :
  generate_rules_tool s = Returns st result ->
  generate_rules_tool st = Returns st st.
Proof.
  unfold generate_rules_tool. cbv zeta. intros H.
  apply bind_get_inv in H as (profile & Hp & H).
  apply bind_lift_inv in H as (nulls & Hn & H).
  apply bind_lift_inv in H as (has_nulls & Hhn & H).
  apply bind_get_inv in H as (anomalies & Ha & H).
  apply bind_lift_inv in H as (count & Hc & H).
  apply bind_lift_inv in H as (has_anomalies & Hhc & H).
  apply bind_reads_inv in H as (rules & Hm & H);
    [|apply clip_part_reads_only].
  apply assign_return_inv in H as (d & -> & -> & _).
  erewrite bind_get_ok
    by (rewrite get_method_set_other by discriminate; apply Hp).
  erewrite bind_lift_ok by apply Hn.
  erewrite bind_lift_ok by apply Hhn.
  erewrite bind_get_ok
    by (rewrite get_method_set_other by discriminate; apply Ha).
  erewrite bind_lift_ok by apply Hc.
  erewrite bind_lift_ok by apply Hhc.
  erewrite bind_reads_ok by (apply clip_part_ignores_rules, Hm).
  rewrite assign_return_ok. now rewrite dict_set_twice.
Qed.

(** X3.  [profile], [detect_anomalies] and [generate_rules] read keys
    they do not write: run again on the state they produced, each returns
    that state unchanged.  ([apply_rules] reads the [data] it writes and
    is not in this class.) *)
Theorem reading_tools_are_idempotent (name : string) (tool_fn : Tool value)
    (s st result : value) :
  TOOLS name = Some tool_fn ->
  name <> "apply_rules" ->
  tool_fn s = Returns st result ->
  tool_fn st = Returns st st.
Proof.
  unfold TOOLS.
  destruct (String.eqb name "profile");
    [intros H _; inversion H; subst; apply profile_idempotent|].
  destruct (String.eqb name "detect_anomalies");
    [intros H _; inversion H; subst; apply detect_anomalies_idempotent|].
  destruct (String.eqb name "generate_rules");
    [intros H _; inversion H; subst; apply generate_rules_idempotent|].
  destruct (String.eqb_spec name "apply_rules"); [contradiction|discriminate].
Qed.

Lemma reading_tools_are_idempotent_witness :
  detect_anomalies_tool
    (VDict [("data", VList [VInt 1; VNone; VInt 150]);
            ("anomaly_bounds", VList [VInt 0; VInt 100]);
            ("anomalies",
             VDict [("count", VInt 1); ("values", VList [VInt 150])])])
  = Returns
      (VDict [("data", VList [VInt 1; VNone; VInt 150]);
              ("anomaly_bounds", VList [VInt 0; VInt 100]);
              ("anomalies",
               VDict [("count", VInt 1); ("values", VList [VInt 150])])])
      (VDict [("data", VList [VInt 1; VNone; VInt 150]);
              ("anomaly_bounds", VList [VInt 0; VInt 100]);
              ("anomalies",
               VDict [("count", VInt 1); ("values", VList [VInt 150])])]).
Proof.
  apply (reading_tools_are_idempotent "detect_anomalies"
           detect_anomalies_tool scenario_state _
           (VDict [("data", VList [VInt 1; VNone; VInt 150]);
                   ("anomaly_bounds", VList [VInt 0; VInt 100]);
                   ("anomalies",
                    VDict [("count", VInt 1);
                           ("values", VList [VInt 150])])]));
    [reflexivity | discriminate | reflexivity].
Defined.

Lemma count_nulls_bounds (items : list value) :
  (List.length (filter is_none items) <= List.length items)%nat /\
  (List.length (filter is_none items) = 0%nat <->
   existsb is_none items = false).
Proof.
  induction items as [|v items [IHle IHz]]; simpl; [now split|].
  destruct (is_none v); simpl; split; try lia; try easy.
Qed.

Lemma profile_on_list (d : dict) (data : value) (items : list value) :
  get_method (VDict d) "data" (VList []) = Ok data ->
  data = VList items ->
  profile_data_tool (VDict d) =
    Returns
      (VDict (dict_set "profile"
                (VDict [("rows", VInt (Z.of_nat (List.length items)));
                        ("nulls",
                         count_of (List.length (filter is_none items)))])
                d))
      (VDict (dict_set "profile"
                (VDict [("rows", VInt (Z.of_nat (List.length items)));
                        ("nulls",
                         count_of (List.length (filter is_none items)))])
                d)).
Proof.
  intros Hdata ->. unfold profile_data_tool.
  erewrite bind_get_ok by apply Hdata.
  erewrite bind_lift_ok by reflexivity.
  erewrite bind_lift_ok by reflexivity.
  apply assign_return_ok.
Qed.

(** X4.  On a state dict whose [data] is a list (or is missing, which
    reads as the empty list) [profile] never raises: it binds [profile]
    to the number of rows and a null count that lies between 0 and that
    number and is 0 exactly when no entry is null. *)
Theorem profile_counts (d : dict) (items : list value) :
  get_method (VDict d) "data" (VList []) = Ok (VList items) ->
  exists rows nulls st,
    profile_data_tool (VDict d) = Returns st st /\
    st = VDict (dict_set "profile"
                  (VDict [("rows", VInt rows); ("nulls", VInt nulls)]) d) /\
    rows = Z.of_nat (List.length items) /\
    0 <= nulls <= rows /\
    (nulls = 0 <-> existsb is_none items = false).
Proof.
  intros Hdata.
  destruct (count_nulls_bounds items) as [Hle Hz].
  exists (Z.of_nat (List.length items)),
         (Z.of_nat (List.length (filter is_none items))).
  eexists. split; [now apply (profile_on_list d (VList items) items)|].
  split; [reflexivity|]. split; [reflexivity|]. split; [lia|].
  rewrite <- Hz. lia.
Qed.

Lemma profile_counts_witness :
  exists rows nulls st,
    profile_data_tool scenario_state = Returns st st /\
    st = VDict (dict_set "profile"
                  (VDict [("rows", VInt rows); ("nulls", VInt nulls)])
                  [("data", VList [VInt 1; VNone; VInt 150]);
                   ("anomaly_bounds", VList [VInt 0; VInt 100])]) /\
    rows = 3 /\
    0 <= nulls <= rows /\
    (nulls = 0 <-> existsb is_none [VInt 1; VNone; VInt 150] = false).
Proof.
  exact (profile_counts
           [("data", VList [VInt 1; VNone; VInt 150]);
            ("anomaly_bounds", VList [VInt 0; VInt 100])]
           [VInt 1; VNone; VInt 150] eq_refl).
Defined.

Lemma filter_py_sound (keep : value -> py bool) (items : list value) :
  forall found, filter_py keep items = Ok found ->
    (List.length found <= List.length items)%nat /\
    Forall (fun v => In v items /\ keep v = Ok true) found.
Proof.
  induction items as [|v items IH]; simpl; intros found H.
  - inversion H; subst. split; [simpl; lia|constructor].
  - destruct (keep v) as [b|] eqn:Hk; [|discriminate]. simpl in H.
    destruct (filter_py keep items) as [kept|]; [|discriminate].
    simpl in H. inversion H; subst; clear H.
    destruct (IH kept eq_refl) as [Hle Hall].
    assert (Hall' : Forall (fun w => In w (v :: items) /\ keep w = Ok true)
                      kept).
    { revert Hall. apply Forall_impl. intros w [Hin Hw]. split; auto.
      now right. }
    destruct b; simpl; (split; [lia|]); [|exact Hall'].
    constructor; [|exact Hall']. split; [now left|exact Hk].
Qed.

Lemma In_firstn {A} (n : nat) (l : list A) (x : A) :
  In x (firstn n l) -> In x l.
Proof.
  intros H. rewrite <- (firstn_skipn n l). apply in_or_app. now left.
Qed.

Lemma out_of_bounds_not_none (low high v : value) :
  out_of_bounds low high v = Ok true -> is_none v = false.
Proof. unfold out_of_bounds. destruct (is_none v); congruence. Qed.

(** X5.  However many anomalies [detect_anomalies] finds, it reports at
    most ten values: [values] holds min(count, 10) entries, each a
    non-null entry of [data], and [count] never exceeds the number of
    entries. *)
Theorem detect_reports_at_most_ten (s st result : value) :
  detect_anomalies_tool s = Returns st result ->
  exists data items count values,
    get_method s "data" (VList []) = Ok data /\
    py_iter data = Ok items /\
    getitem st "anomalies" =
      Ok (VDict [("count", VInt count); ("values", VList values)]) /\
    Z.of_nat (List.length values) = Z.min count 10 /\
    0 <= count <= Z.of_nat (List.length items) /\
    Forall (fun v => In v items /\ is_none v = false) values.
Proof.
  unfold detect_anomalies_tool. intros H.
  apply bind_get_inv in H as (data & Hdata & H).
  apply bind_get_inv in H as (bounds & Hbounds & H).
  apply bind_lift_inv in H as ([low high] & Hb & H).
  apply bind_lift_inv in H as (items & Hiter & H).
  apply bind_lift_inv in H as (found & Hf & H).
  apply assign_return_inv in H as (d & -> & -> & _).
  destruct (filter_py_sound _ _ _ Hf) as [Hle Hall].
  exists data, items, (Z.of_nat (List.length found)), (firstn 10 found).
  repeat split; auto; try lia.
  - simpl. now rewrite dict_get_set_same.
  - rewrite length_firstn. lia.
  - apply Forall_forall. intros v Hv.
    apply In_firstn in Hv. rewrite Forall_forall in Hall.
    destruct (Hall v Hv) as [Hin Hk]. split; [exact Hin|].
    now apply (out_of_bounds_not_none low high).
Qed.

Lemma detect_reports_at_most_ten_witness :
  exists data items count values,
    get_method scenario_state "data" (VList []) = Ok data /\
    py_iter data = Ok items /\
    getitem
      (VDict [("data", VList [VInt 1; VNone; VInt 150]);
              ("anomaly_bounds", VList [VInt 0; VInt 100]);
              ("anomalies",
               VDict [("count", VInt 1); ("values", VList [VInt 150])])])
      "anomalies" =
      Ok (VDict [("count", VInt count); ("values", VList values)]) /\
    Z.of_nat (List.length values) = Z.min count 10 /\
    0 <= count <= Z.of_nat (List.length items) /\
    Forall (fun v => In v items /\ is_none v = false) values.
Proof.
  exact (detect_reports_at_most_ten scenario_state _ _ eq_refl).
Defined.

Lemma out_of_bounds_int (lo hi : Z) (v : value) :
  int_or_none v = true ->
  out_of_bounds (VInt lo) (VInt hi) v = Ok (outside lo hi v).
Proof.
  destruct v as [|x| | |]; try discriminate; intros _; [reflexivity|].
  unfold out_of_bounds, outside. simpl. now destruct (Z.ltb x lo).
Qed.

Lemma filter_py_ints (lo hi : Z) (items : list value) :
  forallb int_or_none items = true ->
  filter_py (out_of_bounds (VInt lo) (VInt hi)) items
    = Ok (filter (outside lo hi) items).
Proof.
  induction items as [|v items IH]; simpl; [reflexivity|].
  intros H. apply andb_true_iff in H as [Hv Hrest].
  rewrite (out_of_bounds_int lo hi v Hv), (IH Hrest). simpl.
  now destruct (outside lo hi v).
Qed.

Lemma detect_on_ints (d : dict) (items : list value) (lo hi : Z) :
  get_method (VDict d) "data" (VList []) = Ok (VList items) ->
  forallb int_or_none items = true ->
  get_method (VDict d) "anomaly_bounds" default_bounds
    = Ok (VList [VInt lo; VInt hi]) ->
  detect_anomalies_tool (VDict d) =
    Returns
      (VDict (dict_set "anomalies"
                (VDict [("count",
                         count_of
                           (List.length (filter (outside lo hi) items)));
                        ("values",
                         VList (firstn 10 (filter (outside lo hi) items)))])
                d))
      (VDict (dict_set "anomalies"
                (VDict [("count",
                         count_of
                           (List.length (filter (outside lo hi) items)));
                        ("values",
                         VList (firstn 10 (filter (outside lo hi) items)))])
                d)).
Proof.
  intros Hdata Hints Hbounds. unfold detect_anomalies_tool.
  erewrite bind_get_ok by apply Hdata.
  erewrite bind_get_ok by apply Hbounds.
  erewrite bind_lift_ok by reflexivity. cbv beta iota.
  erewrite bind_lift_ok by reflexivity.
  erewrite bind_lift_ok by (now apply filter_py_ints).
  apply assign_return_ok.
Qed.

(** X6.  On nullable integers with integer bounds (given, or the default
    0 and 100) [detect_anomalies] never raises, and what it counts are
    exactly the entries below [low] or above [high], nulls excluded; the
    values reported are the first ten of them in the order of [data]. *)
Theorem detect_counts_the_outliers (d : dict) (items : list value)
    (lo hi : Z) :
  get_method (VDict d) "data" (VList []) = Ok (VList items) ->
  forallb int_or_none items = true ->
  get_method (VDict d) "anomaly_bounds" default_bounds
    = Ok (VList [VInt lo; VInt hi]) ->
  exists st,
    detect_anomalies_tool (VDict d) = Returns st st /\
    getitem st "anomalies" =
      Ok (VDict
            [("count",
              VInt (Z.of_nat (List.length (filter (outside lo hi) items))));
             ("values", VList (firstn 10 (filter (outside lo hi) items)))]).
Proof.
  intros Hdata Hints Hbounds. eexists. split.
  - now apply (detect_on_ints d items lo hi).
  - simpl. now rewrite dict_get_set_same.
Qed.

Lemma detect_counts_the_outliers_witness :
  exists st,
    detect_anomalies_tool
      (VDict [("data", VList [VInt 150; VNone; VInt (-3); VInt 7])])
      = Returns st st /\
    getitem st "anomalies" =
      Ok (VDict [("count", VInt 2);
                 ("values", VList [VInt 150; VInt (-3)])]).
Proof.
  exact (detect_counts_the_outliers
           [("data", VList [VInt 150; VNone; VInt (-3); VInt 7])]
           [VInt 150; VNone; VInt (-3); VInt 7] 0 100
           eq_refl eq_refl eq_refl).
Defined.

Lemma bind_ok {A B} (m : Tool A) (a : A) (k : A -> Tool B) (s s' : value) :
  m s = Returns s' a -> tool_bind m k s = k a s'.
Proof. intros H. unfold tool_bind. now rewrite H. Qed.

Lemma positive_count (f : value -> bool) (items : list value) :
  Z.gtb (Z.of_nat (List.length (filter f items))) 0 = existsb f items.
Proof.
  induction items as [|v items IH]; simpl; [reflexivity|].
  destruct (f v); simpl; [|exact IH].
  destruct (Z.gtb_spec (Z.of_nat (S (List.length (filter f items)))) 0);
    [reflexivity|lia].
Qed.

Lemma generate_on_counts (d : dict) (nulls count lo hi : Z) :
  (exists rows, get_method (VDict d) "profile" (VDict [])
    = Ok (VDict [("rows", VInt rows); ("nulls", VInt nulls)])) ->
  (exists values, get_method (VDict d) "anomalies" (VDict [])
    = Ok (VDict [("count", VInt count); ("values", values)])) ->
  get_method (VDict d) "anomaly_bounds" default_bounds
    = Ok (VList [VInt lo; VInt hi]) ->
  generate_rules_tool (VDict d) =
    Returns
      (VDict (dict_set "rules"
                (VList ((if Z.gtb nulls 0 then [fill_null_rule] else []) ++
                        (if Z.gtb count 0
                         then [clip_rule_of (VInt lo) (VInt hi)] else [])))
                d))
      (VDict (dict_set "rules"
                (VList ((if Z.gtb nulls 0 then [fill_null_rule] else []) ++
                        (if Z.gtb count 0
                         then [clip_rule_of (VInt lo) (VInt hi)] else [])))
                d)).
Proof.
  intros (rows & Hprofile) (values & Ha) Hb.
  unfold generate_rules_tool. cbv zeta.
  erewrite bind_get_ok by apply Hprofile.
  erewrite bind_lift_ok by reflexivity.
  erewrite bind_lift_ok by reflexivity.
  erewrite bind_get_ok by apply Ha.
  erewrite bind_lift_ok by reflexivity.
  erewrite bind_lift_ok by reflexivity.
  unfold cmp_Z. destruct (Z.gtb count 0).
  - erewrite bind_reads_ok.
    2:{ erewrite bind_get_ok by apply Hb.
        erewrite bind_lift_ok by reflexivity. reflexivity. }
    rewrite assign_return_ok. now destruct (Z.gtb nulls 0).
  - erewrite bind_reads_ok by reflexivity.
    rewrite assign_return_ok. rewrite app_nil_r.
    now destruct (Z.gtb nulls 0).
Qed.

(** X7.  Profiling, detecting and generating in a row, on nullable
    integers with integer bounds, never raises and yields the rules the
    data calls for: a fill rule exactly when an entry is null, followed
    by a clip rule carrying the bounds exactly when an entry lies outside
    them. *)
Theorem rules_follow_the_data (d : dict) (items : list value) (lo hi : Z) :
  get_method (VDict d) "data" (VList []) = Ok (VList items) ->
  forallb int_or_none items = true ->
  get_method (VDict d) "anomaly_bounds" default_bounds
    = Ok (VList [VInt lo; VInt hi]) ->
  exists st,
    and_then profile_data_tool
      (and_then detect_anomalies_tool generate_rules_tool) (VDict d)
      = Returns st st /\
    getitem st "rules" = Ok (VList (expected_rules lo hi items)) /\
    getitem st "data" = getitem (VDict d) "data".
Proof.
  intros Hdata Hints Hbounds. unfold and_then.
  erewrite bind_ok by (apply (profile_on_list d (VList items) items); auto).
  set (d1 := dict_set "profile" _ d).
  erewrite bind_ok.
  2:{ apply (detect_on_ints d1 items lo hi); auto; unfold d1;
        rewrite get_method_set_other by discriminate; auto. }
  set (d2 := dict_set "anomalies" _ d1).
  rewrite (generate_on_counts d2
             (Z.of_nat (List.length (filter is_none items)))
             (Z.of_nat (List.length (filter (outside lo hi) items)))
             lo hi).
  - eexists. split; [reflexivity|]. split.
    + simpl. rewrite dict_get_set_same. unfold expected_rules.
      now rewrite !positive_count.
    + simpl. unfold d2, d1. now rewrite !dict_get_set_other by discriminate.
  - eexists. unfold d2.
    rewrite get_method_set_other by discriminate.
    unfold d1. simpl. rewrite dict_get_set_same. reflexivity.
  - eexists. unfold d2. simpl. rewrite dict_get_set_same. reflexivity.
  - unfold d2, d1. now rewrite !get_method_set_other by discriminate.
Qed.

Lemma rules_follow_the_data_witness :
  exists st,
    and_then profile_data_tool
      (and_then detect_anomalies_tool generate_rules_tool) low_bound_state
      = Returns st st /\
    getitem st "rules" = Ok rules_10_100 /\
    getitem st "data" = getitem low_bound_state "data".
Proof.
  exact (rules_follow_the_data
           [("data", VList [VNone; VInt 150]);
            ("anomaly_bounds", VList [VInt 10; VInt 100])]
           [VNone; VInt 150] 10 100 eq_refl eq_refl eq_refl).
Defined.

Lemma apply_rules_inv (s st result : value) :
  apply_rules_tool s = Returns st result ->
  exists d data rules items new_data,
    s = VDict d /\
    get_method s "data" (VList []) = Ok data /\
    get_method s "rules" (VList []) = Ok rules /\
    py_iter data = Ok items /\
    map_py (apply_to_entry rules) items = Ok new_data /\
    st = VDict (dict_set "data" (VList new_data) d).
Proof.
  unfold apply_rules_tool. intros H.
  apply bind_get_inv in H as (data & Hdata & H).
  apply bind_get_inv in H as (rules & Hrules & H).
  apply bind_lift_inv in H as (items & Hiter & H).
  apply bind_lift_inv in H as (new_data & Hmap & H).
  apply assign_return_inv in H as (d & -> & -> & _).
  exists d, data, rules, items, new_data. repeat split; auto.
Qed.

Lemma map_py_Forall2 (f : value -> py value) (items : list value) :
  forall new_data, map_py f items = Ok new_data ->
    Forall2 (fun v w => f v = Ok w) items new_data.
Proof.
  induction items as [|v items IH]; simpl; intros new_data H.
  - inversion H. constructor.
  - destruct (f v) as [w|] eqn:Hf; [|discriminate]. simpl in H.
    destruct (map_py f items) as [ws|]; [|discriminate].
    simpl in H. inversion H; subst. constructor; auto.
Qed.

Lemma py_order_not_none (op : cmp_op) (a b : value) (r : bool) :
  py_order op a b = Ok r -> is_none a = false /\ is_none b = false.
Proof. destruct a, b; simpl; try discriminate; auto. Qed.

Lemma apply_to_entry_keeps_values (rules v w : value) :
  apply_to_entry rules v = Ok w ->
  is_none v = false -> is_none w = false.
Proof.
  unfold apply_to_entry. intros H Hv. rewrite Hv in H.
  destruct (find_rule "clip" rules) as [clip|]; [|discriminate].
  simpl in H. destruct (truthy clip); [|now inversion H; subst].
  destruct (getitem clip "low") as [low|]; [|discriminate]. simpl in H.
  destruct (getitem clip "high") as [high|]; [|discriminate]. simpl in H.
  unfold py_min, py_max in H.
  destruct (py_order Lt v high) as [lt|] eqn:Hlt; [|discriminate].
  simpl in H.
  destruct (py_order Gt _ low) as [gt|] eqn:Hgt; [|discriminate].
  simpl in H. inversion H; subst; clear H.
  apply py_order_not_none in Hgt as [Hm Hlow].
  now destruct gt.
Qed.

(** X8.  [apply_rules] rewrites [data] entry by entry: the new list has
    as many entries as the old one, and an entry that was not null is
    not null afterwards (clipping never erases a value). *)
Theorem apply_rules_keeps_the_rows (s st result : value) :
  apply_rules_tool s = Returns st result ->
  exists data items new_data,
    get_method s "data" (VList []) = Ok data /\
    py_iter data = Ok items /\
    getitem st "data" = Ok (VList new_data) /\
    List.length new_data = List.length items /\
    Forall2 (fun v w => is_none v = false -> is_none w = false)
      items new_data.
Proof.
  intros H.
  apply apply_rules_inv in H
    as (d & data & rules & items & new_data & -> & Hd & Hr & Hi & Hm & ->).
  exists data, items, new_data.
  apply map_py_Forall2 in Hm.
  repeat split; auto.
  - simpl. now rewrite dict_get_set_same.
  - symmetry. exact (Forall2_length Hm).
  - revert Hm. apply Forall2_impl. intros v w Hvw.
    now apply (apply_to_entry_keeps_values rules).
Qed.

Lemma apply_rules_keeps_the_rows_witness :
  exists data items new_data,
    get_method rules_0_100_state "data" (VList []) = Ok data /\
    py_iter data = Ok items /\
    getitem rules_0_100_applied "data" = Ok (VList new_data) /\
    List.length new_data = List.length items /\
    Forall2 (fun v w => is_none v = false -> is_none w = false)
      items new_data.
Proof.
  exact (apply_rules_keeps_the_rows rules_0_100_state rules_0_100_applied
           rules_0_100_applied eq_refl).
Defined.

Lemma clamp_is_max_min (lo hi x : Z) :
  (if Z.gtb (if Z.ltb x hi then x else hi) lo
   then (if Z.ltb x hi then x else hi) else lo) = Z.max lo (Z.min hi x).
Proof.
  destruct (Z.ltb_spec x hi);
    match goal with |- context [Z.gtb ?a ?b] => destruct (Z.gtb_spec a b) end;
    lia.
Qed.

Lemma apply_to_entry_settled (rules fill clip fill_value v : value)
    (lo hi : Z) :
  find_rule "fill_null" rules = Ok fill ->
  find_rule "clip" rules = Ok clip ->
  truthy clip = true ->
  getitem clip "low" = Ok (VInt lo) ->
  getitem clip "high" = Ok (VInt hi) ->
  (if truthy fill then getitem fill "value" else Ok VNone) = Ok fill_value ->
  int_or_none v = true ->
  apply_to_entry rules v = Ok (settled fill_value lo hi v).
Proof.
  intros Hf Hc Tc Hlo Hhi Hfv Hv. unfold apply_to_entry.
  destruct v as [|x| | |]; try discriminate; cbn [is_none settled].
  - rewrite Hf. cbn [py_bind]. exact Hfv.
  - rewrite Hc. cbn [py_bind]. rewrite Tc, Hlo. cbn [py_bind].
    rewrite Hhi. cbn [py_bind]. rewrite clamp_int.
    now rewrite clamp_is_max_min.
Qed.

Lemma map_py_map (f : value -> py value) (g : value -> value)
    (items : list value) :
  Forall (fun v => f v = Ok (g v)) items ->
  map_py f items = Ok (map g items).
Proof.
  induction 1 as [|v items Hv _ IH]; simpl; [reflexivity|].
  now rewrite Hv, IH.
Qed.

Lemma apply_rules_on_ints (d : dict) (items : list value)
    (rules fill clip fill_value : value) (lo hi : Z) :
  get_method (VDict d) "data" (VList []) = Ok (VList items) ->
  forallb int_or_none items = true ->
  get_method (VDict d) "rules" (VList []) = Ok rules ->
  find_rule "fill_null" rules = Ok fill ->
  find_rule "clip" rules = Ok clip ->
  truthy clip = true ->
  getitem clip "low" = Ok (VInt lo) ->
  getitem clip "high" = Ok (VInt hi) ->
  (if truthy fill then getitem fill "value" else Ok VNone) = Ok fill_value ->
  apply_rules_tool (VDict d) =
    Returns
      (VDict (dict_set "data"
                (VList (map (settled fill_value lo hi) items)) d))
      (VDict (dict_set "data"
                (VList (map (settled fill_value lo hi) items)) d)).
Proof.
  intros Hdata Hints Hrules Hf Hc Tc Hlo Hhi Hfv.
  apply (apply_rules_on_dict d (VList items) rules items); auto.
  apply map_py_map. rewrite forallb_forall in Hints.
  apply Forall_forall. intros v Hv.
  apply (apply_to_entry_settled rules fill clip); auto.
Qed.

(** X9.  With a clip rule of integer bounds [low] and [high],
    [apply_rules] maps every integer entry [x] to max(low, min(high, x))
    and every null entry to the fill rule's value (to null when there is
    no fill rule); when [low <= high], every entry of the new data is
    that fill value or an integer within the bounds. *)
Theorem apply_rules_clamps (d : dict) (items : list value)
    (rules fill clip fill_value : value) (lo hi : Z) :
  get_method (VDict d) "data" (VList []) = Ok (VList items) ->
  forallb int_or_none items = true ->
  get_method (VDict d) "rules" (VList []) = Ok rules ->
  find_rule "fill_null" rules = Ok fill ->
  find_rule "clip" rules = Ok clip ->
  truthy clip = true ->
  getitem clip "low" = Ok (VInt lo) ->
  getitem clip "high" = Ok (VInt hi) ->
  (if truthy fill then getitem fill "value" else Ok VNone) = Ok fill_value ->
  exists st new_data,
    apply_rules_tool (VDict d) = Returns st st /\
    getitem st "data" = Ok (VList new_data) /\
    new_data = map (settled fill_value lo hi) items /\
    (lo <= hi ->
     Forall (fun w => w = fill_value \/
                      exists y, w = VInt y /\ lo <= y <= hi) new_data).
Proof.
  intros Hdata Hints Hrules Hf Hc Tc Hlo Hhi Hfv.
  exists (VDict (dict_set "data"
                   (VList (map (settled fill_value lo hi) items)) d)),
         (map (settled fill_value lo hi) items).
  split; [|split; [|split]].
  - now apply (apply_rules_on_ints d items rules fill clip fill_value lo hi).
  - simpl. now rewrite dict_get_set_same.
  - reflexivity.
  - intros Hle. apply Forall_forall. intros w Hw.
    apply in_map_iff in Hw as (v & <- & Hv).
    rewrite forallb_forall in Hints. specialize (Hints v Hv).
    destruct v as [|x| | |]; try discriminate; simpl; [now left|].
    right. eexists. split; [reflexivity|lia].
Qed.

Lemma apply_rules_clamps_witness :
  exists st new_data,
    apply_rules_tool (low_bound_with [VNone; VInt 150; VInt 3]) =
      Returns st st /\
    getitem st "data" = Ok (VList new_data) /\
    new_data = [VInt 0; VInt 100; VInt 10] /\
    (10 <= 100 ->
     Forall (fun w => w = VInt 0 \/
                      exists y, w = VInt y /\ 10 <= y <= 100) new_data).
Proof.
  exact (apply_rules_clamps
           [("data", VList [VNone; VInt 150; VInt 3]);
            ("anomaly_bounds", VList [VInt 10; VInt 100]);
            ("profile", VDict [("rows", VInt 2); ("nulls", VInt 1)]);
            ("anomalies",
             VDict [("count", VInt 1); ("values", VList [VInt 150])]);
            ("rules", rules_10_100)]
           [VNone; VInt 150; VInt 3] rules_10_100 fill_null_rule
           (clip_rule_of (VInt 10) (VInt 100)) (VInt 0) 10 100
           eq_refl eq_refl eq_refl eq_refl eq_refl eq_refl eq_refl eq_refl
           eq_refl).
Defined.

Lemma settled_int_or_none (fill_value : value) (lo hi : Z)
    (items : list value) :
  int_or_none fill_value = true ->
  forallb int_or_none (map (settled fill_value lo hi) items) = true.
Proof.
  intros Hf. induction items as [|v items IH]; simpl; [reflexivity|].
  rewrite IH, andb_true_r. now destruct v.
Qed.




Lemma settled_reversed (fill_value : value) (lo hi : Z) (items : list value) :
  hi < lo ->
  outside lo hi fill_value = false ->
  forallb int_or_none items = true ->
  filter (outside lo hi) (map (settled fill_value lo hi) items)
    = map (fun _ => VInt lo) (filter (fun v => negb (is_none v)) items).
Proof.
  intros Hlt Hf. induction items as [|v items IH]; simpl; [reflexivity|].
  intros H. apply andb_true_iff in H as [Hv Hrest].
  destruct v as [|x| | |]; try discriminate; simpl.
  - rewrite Hf. now apply IH.
  - replace (Z.max lo (Z.min hi x)) with lo by lia.
    replace (Z.ltb lo lo) with false by (symmetry; apply Z.ltb_ge; lia).
    replace (Z.gtb lo hi) with true
      by (destruct (Z.gtb_spec lo hi); [reflexivity|lia]).
    simpl. now rewrite IH.
Qed.

Lemma settled_reversed_data (lo hi : Z) (items : list value) :
  hi < lo ->
  forallb int_or_none items = true ->
  map (settled VNone lo hi) items
    = map (fun v => if is_none v then VNone else VInt lo) items.
Proof.
  intros Hlt Hints. apply map_ext_in. intros v Hv.
  rewrite forallb_forall in Hints. specialize (Hints v Hv).
  destruct v as [|x| | |]; try discriminate; simpl; [reflexivity|].
  f_equal. lia.
Qed.

Lemma no_value_left (items : list value) :
  List.length (filter (fun v => negb (is_none v)) items) = 0%nat <->
  forallb is_none items = true.
Proof.
  induction items as [|v items IH]; simpl; [easy|].
  destruct (is_none v); simpl; [exact IH|]. split; discriminate.
Qed.

(** X11.  With reversed bounds ([high < low]) and no fill rule,
    [apply_rules] turns every integer entry into [low] and leaves the
    nulls; [detect_anomalies] run right after counts exactly the entries
    that are not null, so its count is 0 only when every entry is null,
    and every value it reports is [low]. *)
Theorem reversed_bounds_flag_every_value (d : dict) (items : list value)
    (rules fill clip : value) (lo hi : Z) :
  get_method (VDict d) "data" (VList []) = Ok (VList items) ->
  forallb int_or_none items = true ->
  get_method (VDict d) "rules" (VList []) = Ok rules ->
  find_rule "fill_null" rules = Ok fill ->
  truthy fill = false ->
  find_rule "clip" rules = Ok clip ->
  truthy clip = true ->
  getitem clip "low" = Ok (VInt lo) ->
  getitem clip "high" = Ok (VInt hi) ->
  get_method (VDict d) "anomaly_bounds" default_bounds
    = Ok (VList [VInt lo; VInt hi]) ->
  hi < lo ->
  exists st count values,
    and_then apply_rules_tool detect_anomalies_tool (VDict d)
      = Returns st st /\
    getitem st "data" =
      Ok (VList (map (fun v => if is_none v then VNone else VInt lo)
                   items)) /\
    getitem st "anomalies" =
      Ok (VDict [("count", VInt count); ("values", VList values)]) /\
    count = Z.of_nat (List.length
                        (filter (fun v => negb (is_none v)) items)) /\
    (count = 0 <-> forallb is_none items = true) /\
    Forall (fun v => v = VInt lo) values.
Proof.
  intros Hdata Hints Hrules Hf Tf Hc Tc Hlo Hhi Hbounds Hlt.
  unfold and_then.
  erewrite bind_ok
    by (apply (apply_rules_on_ints d items rules fill clip VNone lo hi);
        auto; now rewrite Tf).
  set (d1 := dict_set "data" _ d).
  rewrite (detect_on_ints d1 (map (settled VNone lo hi) items) lo hi).
  - rewrite settled_reversed by auto.
    eexists.
    exists (Z.of_nat (List.length
                        (filter (fun v => negb (is_none v)) items))),
           (firstn 10 (map (fun _ => VInt lo)
                         (filter (fun v => negb (is_none v)) items))).
    split; [reflexivity|]. split; [|split; [|split; [|split]]].
    + simpl. rewrite dict_get_set_other by discriminate.
      unfold d1. rewrite dict_get_set_same.
      now rewrite settled_reversed_data.
    + simpl. rewrite dict_get_set_same. now rewrite length_map.
    + reflexivity.
    + rewrite <- no_value_left. lia.
    + apply Forall_forall. intros v Hv. apply In_firstn in Hv.
      apply in_map_iff in Hv as (w & <- & _). reflexivity.
  - unfold d1. simpl. now rewrite dict_get_set_same.
  - now apply settled_int_or_none.
  - unfold d1. now rewrite get_method_set_other by discriminate.
Qed.

Lemma reversed_bounds_flag_every_value_witness :
  exists st count values,
    and_then apply_rules_tool detect_anomalies_tool
      (VDict [("data", VList [VInt 5; VNone; VInt 50]);
              ("anomaly_bounds", VList [VInt 100; VInt 0]);
              ("rules", VList [clip_rule_of (VInt 100) (VInt 0)])])
      = Returns st st /\
    getitem st "data" = Ok (VList [VInt 100; VNone; VInt 100]) /\
    getitem st "anomalies" =
      Ok (VDict [("count", VInt count); ("values", VList values)]) /\
    count = 2 /\
    (count = 0 <-> forallb is_none [VInt 5; VNone; VInt 50] = true) /\
    Forall (fun v => v = VInt 100) values.
Proof.
  exact (reversed_bounds_flag_every_value
           [("data", VList [VInt 5; VNone; VInt 50]);
            ("anomaly_bounds", VList [VInt 100; VInt 0]);
            ("rules", VList [clip_rule_of (VInt 100) (VInt 0)])]
           [VInt 5; VNone; VInt 50]
           (VList [clip_rule_of (VInt 100) (VInt 0)]) VNone
           (clip_rule_of (VInt 100) (VInt 0)) 100 0
           eq_refl eq_refl eq_refl eq_refl eq_refl eq_refl eq_refl eq_refl
           eq_refl eq_refl ltac:(lia)).
Defined.

Lemma apply_to_entry_no_rules (v : value) :
  apply_to_entry (VList []) v = Ok v.
Proof. unfold apply_to_entry. now destruct (is_none v). Qed.

(** X12.  Without rules there is nothing to apply: when [rules] is
    missing or empty, [apply_rules] returns for any list of entries,
    whatever their types, and the new [data] is a list of the same
    entries; a state that already binds [data] to that list is left
    unchanged. *)
Theorem apply_rules_without_rules (d : dict) (items : list value) :
  get_method (VDict d) "data" (VList []) = Ok (VList items) ->
  get_method (VDict d) "rules" (VList []) = Ok (VList []) ->
  exists st,
    apply_rules_tool (VDict d) = Returns st st /\
    getitem st "data" = Ok (VList items) /\
    (dict_get "data" d = Some (VList items) -> st = VDict d).
Proof.
  intros Hdata Hrules.
  exists (VDict (dict_set "data" (VList items) d)). split; [|split].
  - apply (apply_rules_on_dict d (VList items) (VList []) items); auto.
    rewrite <- (map_id items) at 2. apply map_py_map.
    apply Forall_forall. intros v _. apply apply_to_entry_no_rules.
  - simpl. now rewrite dict_get_set_same.
  - intros H. now rewrite dict_set_same_value.
Qed.

Lemma apply_rules_without_rules_witness :
  exists st,
    apply_rules_tool
      (VDict [("data", VList [VStr "a"; VNone; VList [VInt 1]])])
      = Returns st st /\
    getitem st "data" = Ok (VList [VStr "a"; VNone; VList [VInt 1]]) /\
    (dict_get "data" [("data", VList [VStr "a"; VNone; VList [VInt 1]])]
       = Some (VList [VStr "a"; VNone; VList [VInt 1]]) ->
     st = VDict [("data", VList [VStr "a"; VNone; VList [VInt 1]])]).
Proof.
  exact (apply_rules_without_rules
           [("data", VList [VStr "a"; VNone; VList [VInt 1]])]
           [VStr "a"; VNone; VList [VInt 1]] eq_refl eq_refl).
Defined.

(** ** The resolver and the condition evaluator *)

(** X13.  [_resolve_metric] finds the value at a dotted path whenever
    every segment is a key of the mapping reached so far; where a key is
    missing it returns [None] or raises; and the only exception it ever
    raises on a path string is [AttributeError]. *)
Theorem resolver_finds_nested_values (s : value) (path : string) :
  (forall v, spec_resolve s (split_dot path) = Present v ->
             _resolve_metric s (VStr path) = Ok v) /\
  (spec_resolve s (split_dot path) = Absent ->
   _resolve_metric s (VStr path) = Ok VNone \/
   _resolve_metric s (VStr path) = Err AttributeError) /\
  (forall e, _resolve_metric s (VStr path) = Err e -> e = AttributeError).
Proof.
  split; [|split].
  - intros v H. now apply walk_present.
  - intros H. now apply walk_absent.
  - intros e H. simpl in H.
    destruct (spec_resolve s (split_dot path)) as [v|] eqn:Hspec.
    + rewrite (walk_present _ _ _ Hspec) in H. discriminate.
    + destruct (walk_absent _ _ Hspec) as [Hw|Hw]; rewrite Hw in H;
        [discriminate|now inversion H].
Qed.

Lemma resolver_finds_nested_values_witness :
  _resolve_metric
    (VDict [("anomalies",
             VDict [("count", VInt 1); ("values", VList [VInt 150])])])
    (VStr "anomalies.count") = Ok (VInt 1).
Proof.
  exact (proj1 (resolver_finds_nested_values
                  (VDict [("anomalies",
                           VDict [("count", VInt 1);
                                  ("values", VList [VInt 150])])])
                  "anomalies.count") (VInt 1) eq_refl).
Defined.

Lemma condition_unfold (graph : GraphDef) (cond : dict)
    (metric op target snap metric_val : value) :
  loop_condition graph = Some cond ->
  dict_get "metric" cond = Some metric ->
  dict_get "op" cond = Some op ->
  dict_get "value" cond = Some target ->
  _resolve_metric snap metric = Ok metric_val ->
  _condition_satisfied graph snap =
    if is_none metric_val then Ok (false, metric_val)
    else if op_is op "<=" then
      (b <- py_order Le metric_val target ;; Ok (b, metric_val))%py
    else if op_is op "<" then
      (b <- py_order Lt metric_val target ;; Ok (b, metric_val))%py
    else if op_is op ">=" then
      (b <- py_order Ge metric_val target ;; Ok (b, metric_val))%py
    else if op_is op ">" then
      (b <- py_order Gt metric_val target ;; Ok (b, metric_val))%py
    else if op_is op "==" then Ok (py_eq metric_val target, metric_val)
    else if op_is op "!=" then
      Ok (negb (py_eq metric_val target), metric_val)
    else Ok (false, metric_val).
Proof.
  intros Hc Hm Hop Hv Hr. unfold _condition_satisfied. rewrite Hc.
  destruct cond as [|kv cond']; [discriminate|].
  cbn [truthy negb getitem]. rewrite Hm. cbn [py_bind].
  rewrite Hr. cbn [py_bind]. rewrite Hop, Hv. reflexivity.
Qed.

(** X14.  On an integer metric and an integer target the six comparators
    mean the six comparisons: the evaluator returns normally, reports the
    metric, and is satisfied exactly when the comparison holds. *)
Theorem condition_compares_integers (graph : GraphDef) (cond : dict)
    (path symbol : string) (s : value) (m t : Z) :
  loop_condition graph = Some cond ->
  dict_get "metric" cond = Some (VStr path) ->
  dict_get "op" cond = Some (VStr symbol) ->
  dict_get "value" cond = Some (VInt t) ->
  In symbol operators ->
  spec_resolve s (split_dot path) = Present (VInt m) ->
  exists satisfied,
    _condition_satisfied graph s = Ok (satisfied, VInt m) /\
    (satisfied = true <-> meaning symbol m t).
Proof.
  intros Hc Hm Hop Hv Hin Hs.
  rewrite (condition_unfold graph cond (VStr path) (VStr symbol) (VInt t)
             s (VInt m)); auto using walk_present.
  2:{ now apply walk_present. }
  unfold operators in Hin. simpl in Hin.
  destruct Hin as [<-|[<-|[<-|[<-|[<-|[<-|[]]]]]]];
    eexists; (split; [reflexivity|]); unfold meaning; simpl.
  - apply Z.leb_le.
  - apply Z.ltb_lt.
  - rewrite Z.geb_le. lia.
  - rewrite Z.gtb_lt. lia.
  - apply Z.eqb_eq.
  - rewrite negb_true_iff. apply Z.eqb_neq.
Qed.

Lemma condition_compares_integers_witness :
  exists satisfied,
    _condition_satisfied clip_loop
      (VDict [("anomalies", VDict [("count", VInt 0)])])
      = Ok (satisfied, VInt 0) /\
    (satisfied = true <-> meaning "<=" 0 0).
Proof.
  apply (condition_compares_integers clip_loop
           [("metric", VStr "anomalies.count"); ("op", VStr "<=");
            ("value", VInt 0)] "anomalies.count" "<=");
    [ reflexivity | reflexivity | reflexivity | reflexivity
    | now left | reflexivity ].
Defined.

(** X15.  A comparator the evaluator does not know, a misspelt one or
    one that is not a string, never stops a loop: whatever the metric and
    the target, the evaluator returns not-satisfied, without comparing
    and hence without raising. *)
Theorem unknown_operator_never_satisfied (graph : GraphDef) (cond : dict)
    (metric op target s metric_val : value) :
  loop_condition graph = Some cond ->
  dict_get "metric" cond = Some metric ->
  dict_get "op" cond = Some op ->
  dict_get "value" cond = Some target ->
  _resolve_metric s metric = Ok metric_val ->
  (forall symbol, In symbol operators -> py_eq op (VStr symbol) = false) ->
  _condition_satisfied graph s = Ok (false, metric_val).
Proof.
  intros Hc Hm Hop Hv Hr Hunknown.
  rewrite (condition_unfold graph cond metric op target s metric_val); auto.
  unfold op_is.
  rewrite !Hunknown by (unfold operators; simpl; tauto).
  now destruct (is_none metric_val).
Qed.

Lemma unknown_operator_never_satisfied_witness :
  _condition_satisfied
    {| nodes := []; edges := []; start_node := "";
       loop_condition :=
         Some [("metric", VStr "n"); ("op", VStr "=<");
               ("value", VStr "zero")] |}
    (VDict [("n", VInt 0)]) = Ok (false, VInt 0).
Proof.
  apply (unknown_operator_never_satisfied _
           [("metric", VStr "n"); ("op", VStr "=<"); ("value", VStr "zero")]
           (VStr "n") (VStr "=<") (VStr "zero"));
    [ reflexivity | reflexivity | reflexivity | reflexivity | reflexivity | ].
  intros symbol Hin. unfold operators in Hin. simpl in Hin.
  destruct Hin as [<-|[<-|[<-|[<-|[<-|[<-|[]]]]]]]; reflexivity.
Defined.

(** X16.  A loop condition that is not empty must carry its three keys:
    without [metric] the evaluator raises [KeyError] at once, and
    without [op] or [value] it raises [KeyError] as soon as the metric
    has resolved, even to [None]. *)
Theorem condition_needs_its_keys (graph : GraphDef) (cond : dict)
    (s : value) :
  loop_condition graph = Some cond ->
  cond <> [] ->
  dict_get "metric" cond = None \/
  (exists metric metric_val,
     dict_get "metric" cond = Some metric /\
     _resolve_metric s metric = Ok metric_val /\
     (dict_get "op" cond = None \/ dict_get "value" cond = None)) ->
  _condition_satisfied graph s = Err KeyError.
Proof.
  intros Hc Hne Hmissing. unfold _condition_satisfied. rewrite Hc.
  destruct cond as [|kv cond']; [contradiction|].
  cbn [truthy negb getitem].
  destruct Hmissing as [Hm|(metric & mv & Hm & Hr & Hk)]; rewrite Hm;
    [reflexivity|].
  cbn [py_bind]. rewrite Hr. cbn [py_bind].
  destruct Hk as [Hk|Hk].
  - now rewrite Hk.
  - rewrite Hk. now destruct (dict_get "op" (kv :: cond')).
Qed.

Lemma condition_needs_its_keys_witness :
  _condition_satisfied
    {| nodes := []; edges := []; start_node := "";
       loop_condition := Some [("metric", VStr "n"); ("op", VStr "<=")] |}
    (VDict []) = Err KeyError.
Proof.
  apply (condition_needs_its_keys _ [("metric", VStr "n"); ("op", VStr "<=")]);
    [ reflexivity | discriminate | ].
  right. exists (VStr "n"), VNone. repeat split. now right.
Defined.

(** ** The executor, path by path *)

Lemma after_status (tools : registry) (graph : GraphDef) (k : nat)
    (r : RunRecord) (fr : frame) :
  after tools graph k (entry graph r) = Some fr ->
  in_step fr /\ visited fr = k /\ run_status (run fr) = run_status r.
Proof.
  intros Hk.
  destruct (after_in_step tools graph k _ _ Hk (in_step_entry graph r))
    as (Hin & Hv & Hs). simpl in Hv, Hs.
  repeat split; try apply Hin; auto. lia.
Qed.

(** X17.  An exception raised while the loop condition is evaluated is
    not caught: it leaves [execute_graph] at once.  The record then
    holds the state the node produced and the log up to its "Running
    node" entry, and its status is still the one the run started with. *)
Theorem condition_error_escapes (tools : registry) (graph : GraphDef)
    (max_steps k : nat) (r : RunRecord) (fr : frame)
    (tool_fn : Tool value) (st result : value) (e : exn) :
  after tools graph k (entry graph r) = Some fr ->
  (k < max_steps)%nat ->
  current fr <> "" ->
  tool_for tools (str_get (current fr) (nodes graph)) = Some tool_fn ->
  tool_fn (state fr) = Returns st result ->
  _condition_satisfied graph (if is_none result then st else result)
    = Err e ->
  execute tools graph max_steps r =
    {| final_run :=
         {| run_state := if is_none result then st else result;
            run_log :=
              log fr ++
              [RunningNode (current fr) (str_get (current fr) (nodes graph))];
            run_status := run_status r |};
       steps := S k;
       how := Uncaught e |}.
Proof.
  intros Hk Hlt Hcur Htool Hret Hcond.
  destruct (after_status tools graph k r fr Hk) as (_ & Hv & Hs).
  apply (execute_halts_at tools graph max_steps k r fr); auto.
  unfold loop_body. rewrite Htool, Hret, Hcond.
  unfold set_state, set_log, set_status; simpl.
  now rewrite Hs, Hv.
Qed.

Lemma condition_error_escapes_witness :
  execute_graph
    {| nodes := [("p", "profile")]; edges := [("p", "p")];
       start_node := "p";
       loop_condition := Some [("metric", VStr "profile.rows")] |}
    (new_run (VDict []))
  = {| final_run :=
         {| run_state :=
              VDict [("profile",
                      VDict [("rows", VInt 0); ("nulls", VInt 0)])];
            run_log := [RunningNode "p" (Some "profile")];
            run_status := running |};
       steps := 1;
       how := Uncaught KeyError |}.
Proof.
  unfold execute_graph.
  erewrite condition_error_escapes with (k := 0%nat) (e := KeyError);
    [ | reflexivity | unfold MAX_STEPS; lia | discriminate
      | reflexivity | cbv; reflexivity | reflexivity ].
  reflexivity.
Defined.

(** X18.  The safety stop: when a node leaves the state equal to what it
    was before the node ran, and the loop condition is not satisfied,
    the run is marked finished at that step with a "State unchanged"
    entry, whatever edges the graph has. *)
Theorem unchanged_state_stops_run (tools : registry) (graph : GraphDef)
    (max_steps k : nat) (r : RunRecord) (fr : frame)
    (tool_fn : Tool value) (st result metric_val : value) :
  after tools graph k (entry graph r) = Some fr ->
  (k < max_steps)%nat ->
  current fr <> "" ->
  tool_for tools (str_get (current fr) (nodes graph)) = Some tool_fn ->
  tool_fn (state fr) = Returns st result ->
  _condition_satisfied graph (if is_none result then st else result)
    = Ok (false, metric_val) ->
  py_eq (if is_none result then st else result) (state fr) = true ->
  execute tools graph max_steps r =
    {| final_run :=
         {| run_state := if is_none result then st else result;
            run_log :=
              log fr ++
              [RunningNode (current fr) (str_get (current fr) (nodes graph));
               StateUnchanged];
            run_status := finished |};
       steps := S k;
       how := Returned |}.
Proof.
  intros Hk Hlt Hcur Htool Hret Hcond Heq.
  destruct (after_status tools graph k r fr Hk) as ((_ & _ & Hp) & Hv & _).
  apply (execute_halts_at tools graph max_steps k r fr); auto.
  unfold loop_body. rewrite Htool, Hret, Hcond, Hp, Heq.
  unfold set_state, set_log, set_status; simpl.
  rewrite <- app_assoc, Hv. reflexivity.
Qed.

Lemma unchanged_state_stops_run_witness :
  let res := execute_graph (self_loop "profile" None)
               (new_run scenario_state) in
  steps res = 2%nat /\ run_status (final_run res) = finished /\
  run_log (final_run res) =
    [RunningNode "a" (Some "profile"); RunningNode "a" (Some "profile");
     StateUnchanged].
Proof.
  cbv zeta. unfold execute_graph.
  erewrite unchanged_state_stops_run with (k := 1%nat);
    [ | reflexivity | unfold MAX_STEPS; lia | discriminate
      | reflexivity | cbv; reflexivity | reflexivity | reflexivity ].
  repeat split.
Defined.

Lemma run_loop_break (tools : registry) (graph : GraphDef)
    (budget : nat) (fr fr' : frame) :
  current fr <> "" ->
  loop_body tools graph fr = Break fr' ->
  run_loop tools graph (S budget) fr = normal_finish fr'.
Proof.
  intros Hcur Hb. simpl.
  destruct (String.eqb_spec (current fr) ""); [contradiction|].
  now rewrite Hb.
Qed.

(** X19.  The natural end: when a node has changed the state, the loop
    condition is not satisfied and the node has no successor (no edge,
    or an edge to the empty name), the loop is left and the run is
    marked finished with an "Execution finished" entry. *)
Theorem last_node_finishes_run (tools : registry) (graph : GraphDef)
    (max_steps k : nat) (r : RunRecord) (fr : frame)
    (tool_fn : Tool value) (st result metric_val : value) :
  after tools graph k (entry graph r) = Some fr ->
  (k < max_steps)%nat ->
  current fr <> "" ->
  tool_for tools (str_get (current fr) (nodes graph)) = Some tool_fn ->
  tool_fn (state fr) = Returns st result ->
  _condition_satisfied graph (if is_none result then st else result)
    = Ok (false, metric_val) ->
  py_eq (if is_none result then st else result) (state fr) = false ->
  str_get (current fr) (edges graph) = None \/
  str_get (current fr) (edges graph) = Some "" ->
  run_status r <> failed ->
  execute tools graph max_steps r =
    {| final_run :=
         {| run_state := if is_none result then st else result;
            run_log :=
              log fr ++
              [RunningNode (current fr) (str_get (current fr) (nodes graph));
               ExecutionFinished];
            run_status := finished |};
       steps := S k;
       how := Returned |}.
Proof.
  intros Hk Hlt Hcur Htool Hret Hcond Hneq Hedge Hrun.
  destruct (after_status tools graph k r fr Hk) as ((_ & _ & Hp) & Hv & Hs).
  unfold execute.
  replace max_steps with (k + S (max_steps - S k))%nat by lia.
  rewrite (run_loop_after tools graph k _ _ _ Hk).
  erewrite run_loop_break; [|exact Hcur|].
  2:{ unfold loop_body. rewrite Htool, Hret, Hcond, Hp, Hneq.
      destruct Hedge as [-> | ->]; reflexivity. }
  rewrite normal_finish_status by (simpl; congruence).
  simpl. rewrite <- app_assoc, Hv. reflexivity.
Qed.

Lemma last_node_finishes_run_witness :
  let res := execute_graph pipeline (new_run scenario_state) in
  steps res = 4%nat /\ run_status (final_run res) = finished /\
  run_log (final_run res) =
    [RunningNode "profile" (Some "profile");
     RunningNode "detect_anomalies" (Some "detect_anomalies");
     RunningNode "generate_rules" (Some "generate_rules");
     RunningNode "apply_rules" (Some "apply_rules");
     ExecutionFinished].
Proof.
  cbv zeta. unfold execute_graph.
  erewrite last_node_finishes_run with (k := 3%nat);
    [ | reflexivity | unfold MAX_STEPS; lia | discriminate
      | reflexivity | cbv; reflexivity | reflexivity | reflexivity
      | now left | discriminate ].
  repeat split.
Defined.

(** ** The executor, over whole runs *)

(** How the loop is left: after some completed passes, either its guard
    fails, or a pass breaks out of it, or a pass returns from the
    function. *)
Lemma run_loop_ends (tools : registry) (graph : GraphDef) (budget : nat) :
  forall fr,
  exists j fr',
    after tools graph j fr = Some fr' /\ (j <= budget)%nat /\
    (run_loop tools graph budget fr = normal_finish fr' \/
     (exists fr'', current fr' <> "" /\
                   loop_body tools graph fr' = Break fr'' /\
                   run_loop tools graph budget fr = normal_finish fr'') \/
     (exists res, current fr' <> "" /\
                  loop_body tools graph fr' = Halt res /\
                  run_loop tools graph budget fr = res)).
Proof.
  induction budget as [|b IH]; intros fr.
  - exists 0%nat, fr. simpl. auto.
  - simpl. destruct (String.eqb_spec (current fr) "") as [Hc|Hc].
    + exists 0%nat, fr. simpl. repeat split; auto; lia.
    + destruct (loop_body tools graph fr) as [fr1|fr1|res] eqn:Hb.
      * destruct (IH fr1) as (j & fr' & Hj & Hle & Hend).
        exists (S j), fr'. simpl.
        destruct (String.eqb_spec (current fr) ""); [contradiction|].
        rewrite Hb. repeat split; auto; lia.
      * exists 0%nat, fr. simpl. repeat split; [lia|].
        right. left. exists fr1. auto.
      * exists 0%nat, fr. simpl. repeat split; [lia|].
        right. right. exists res. auto.
Qed.

Lemma count_running_app (l l' : list log_entry) :
  count_running (l ++ l') = (count_running l + count_running l')%nat.
Proof. unfold count_running. now rewrite filter_app, length_app. Qed.

Lemma loop_body_Next_log (tools : registry) (graph : GraphDef)
    (fr fr' : frame) :
  loop_body tools graph fr = Next fr' ->
  log fr' =
    log fr ++ [RunningNode (current fr) (str_get (current fr) (nodes graph))]
  /\ exists tool_fn st result,
       tool_for tools (str_get (current fr) (nodes graph)) = Some tool_fn /\
       tool_fn (state fr) = Returns st result /\
       state fr' = (if is_none result then st else result).
Proof.
  unfold loop_body.
  destruct (tool_for _ _) as [tool_fn|]; [|discriminate].
  destruct (tool_fn _) as [st result|st e] eqn:Ht; [|discriminate].
  destruct (_condition_satisfied _ _) as [[[] mv]|]; try discriminate.
  destruct (py_eq _ _); [discriminate|].
  destruct (str_get (current fr) (edges graph)) as [n|]; [|discriminate].
  destruct (String.eqb n ""); [discriminate|].
  intros H. inversion H; subst; clear H. simpl. split; [reflexivity|].
  exists tool_fn, st, result. auto.
Qed.

Lemma loop_body_Break_log (tools : registry) (graph : GraphDef)
    (fr fr' : frame) :
  loop_body tools graph fr = Break fr' ->
  log fr' =
    log fr ++ [RunningNode (current fr) (str_get (current fr) (nodes graph))]
  /\ exists tool_fn st result,
       tool_for tools (str_get (current fr) (nodes graph)) = Some tool_fn /\
       tool_fn (state fr) = Returns st result /\
       state fr' = (if is_none result then st else result).
Proof.
  unfold loop_body.
  destruct (tool_for _ _) as [tool_fn|]; [|discriminate].
  destruct (tool_fn _) as [st result|st e] eqn:Ht; [|discriminate].
  destruct (_condition_satisfied _ _) as [[[] mv]|]; try discriminate.
  destruct (py_eq _ _); [discriminate|].
  destruct (str_get (current fr) (edges graph)) as [n|].
  - destruct (String.eqb n ""); [|discriminate].
    intros H. inversion H; subst; clear H. simpl. split; [reflexivity|].
    exists tool_fn, st, result. auto.
  - intros H. inversion H; subst; clear H. simpl. split; [reflexivity|].
    exists tool_fn, st, result. auto.
Qed.

(** What a pass that returns from the function leaves in the record. *)
Lemma loop_body_Halt_log (tools : registry) (graph : GraphDef)
    (fr : frame) (res : exec_result) :
  loop_body tools graph fr = Halt res ->
  exists tail,
    run_log (final_run res) =
      log fr ++
      RunningNode (current fr) (str_get (current fr) (nodes graph)) :: tail /\
    count_running tail = 0%nat /\
    match how res with
    | Returned =>
        exists last, tail = [last] /\
                     closes last (run_status (final_run res)) = true
    | Uncaught _ =>
        tail = [] /\ run_status (final_run res) = run_status (run fr)
    end.
Proof.
  unfold loop_body.
  destruct (tool_for _ _) as [tool_fn|].
  2:{ intros H. inversion H; subst; clear H. simpl.
      eexists. rewrite <- app_assoc. split; [reflexivity|].
      split; [reflexivity|]. eexists. split; reflexivity. }
  destruct (tool_fn _) as [st result|st e].
  2:{ intros H. inversion H; subst; clear H. simpl.
      eexists. rewrite <- app_assoc. split; [reflexivity|].
      split; [reflexivity|]. eexists. split; reflexivity. }
  destruct (_condition_satisfied _ _) as [[[] mv]|].
  - intros H. inversion H; subst; clear H. simpl.
    eexists. rewrite <- app_assoc. split; [reflexivity|].
    split; [reflexivity|]. eexists. split; reflexivity.
  - destruct (py_eq _ _).
    + intros H. inversion H; subst; clear H. simpl.
      eexists. rewrite <- app_assoc. split; [reflexivity|].
      split; [reflexivity|]. eexists. split; reflexivity.
    + destruct (str_get _ _) as [n|]; [destruct (String.eqb n "")|];
        discriminate.
  - intros H. inversion H; subst; clear H. simpl.
    exists []. repeat split.
Qed.

Lemma after_log (tools : registry) (graph : GraphDef) (j : nat) :
  forall fr fr', after tools graph j fr = Some fr' ->
    exists passed,
      log fr' = log fr ++ passed /\ count_running passed = j /\
      Forall (fun e => is_running_entry e = true) passed.
Proof.
  induction j as [|j IH]; simpl; intros fr fr' H.
  - inversion H; subst. exists []. rewrite app_nil_r. repeat split.
    constructor.
  - destruct (String.eqb (current fr) ""); [discriminate|].
    destruct (loop_body tools graph fr) as [fr1| |] eqn:Hb; try discriminate.
    apply loop_body_Next_log in Hb as (Hlog & _).
    destruct (IH _ _ H) as (passed & Hp & Hc & Hall).
    eexists. rewrite Hp, Hlog, <- app_assoc. split; [reflexivity|].
    split; [|constructor; auto].
    rewrite count_running_app. simpl. now rewrite Hc.
Qed.

(** X20.  The log only grows, and it counts the steps: the log a run
    leaves is the log it started with followed by new entries, and the
    number of "Running node" entries among them is the number of passes
    through the loop. *)
Theorem log_grows_and_counts_steps (tools : registry) (graph : GraphDef)
    (max_steps : nat) (r : RunRecord) :
  let res := execute tools graph max_steps r in
  exists added,
    run_log (final_run res) = run_log r ++ added /\
    count_running added = steps res.
Proof.
  cbv zeta. unfold execute.
  destruct (run_loop_ends tools graph max_steps (entry graph r))
    as (j & fr & Hj & _ & Hend).
  destruct (after_log tools graph j _ _ Hj) as (passed & Hlog & Hcount & _).
  destruct (after_status tools graph j r fr Hj) as ((_ & Hrl & _) & Hv & _).
  simpl in Hlog.
  assert (Hfinish : forall fr' extra,
            log fr' = run_log r ++ passed ++ extra ->
            run_log (run fr') = log fr' ->
            count_running extra = (visited fr' - j)%nat ->
            (j <= visited fr')%nat ->
            exists added,
              run_log (final_run (normal_finish fr')) = run_log r ++ added /\
              count_running added = steps (normal_finish fr')).
  { intros fr' extra Hl Hr Hc Hle. unfold normal_finish.
    destruct (negb _); simpl.
    - exists (passed ++ extra ++ [ExecutionFinished]).
      rewrite Hl, <- !app_assoc. split; [reflexivity|].
      rewrite !count_running_app, Hcount, Hc. simpl.
      unfold count_running. simpl. lia.
    - exists (passed ++ extra). rewrite Hr, Hl. split; [reflexivity|].
      rewrite count_running_app, Hcount, Hc. lia. }
  destruct Hend as [Hn|[(fr2 & Hcur & Hb & Hn)|(res & Hcur & Hb & Hn)]];
    rewrite Hn.
  - apply (Hfinish fr []); rewrite ?app_nil_r; auto.
    + rewrite Hv, Nat.sub_diag. reflexivity.
    + lia.
  - pose proof (loop_body_Break _ _ _ _ Hb) as ((_ & Hrl2 & _) & Hv2 & _).
    apply loop_body_Break_log in Hb as (Hl2 & _).
    apply (Hfinish fr2 [RunningNode (current fr)
                          (str_get (current fr) (nodes graph))]); auto.
    + now rewrite Hl2, Hlog, <- app_assoc.
    + rewrite Hv2, Hv. replace (S j - j)%nat with 1%nat by lia.
      reflexivity.
    + lia.
  - pose proof (loop_body_Halt _ _ _ _ Hb) as (Hs & _).
    apply loop_body_Halt_log in Hb as (tail & Hl & Hc & _).
    eexists. rewrite Hl, Hlog, <- app_assoc. split; [reflexivity|].
    rewrite count_running_app, Hcount.
    change (RunningNode (current fr) (str_get (current fr) (nodes graph))
              :: tail)
      with ([RunningNode (current fr) (str_get (current fr) (nodes graph))]
              ++ tail).
    rewrite count_running_app, Hc, Hs, Hv.
    unfold count_running. simpl. lia.
Qed.

(** X21.  The last log entry tells how a run ended: when a run that
    started as [running] returns, its log ends with "Loop stop
    satisfied", "State unchanged" or "Execution finished" and its status
    is finished, or it ends with "Missing tool" or "Exception in" and its
    status is failed. *)
Theorem last_entry_matches_status (tools : registry) (graph : GraphDef)
    (max_steps : nat) (r : RunRecord) :
  run_status r = running ->
  how (execute tools graph max_steps r) = Returned ->
  exists earlier last,
    run_log (final_run (execute tools graph max_steps r))
      = earlier ++ [last] /\
    closes last (run_status (final_run (execute tools graph max_steps r)))
      = true.
Proof.
  intros Hrun. unfold execute.
  destruct (run_loop_ends tools graph max_steps (entry graph r))
    as (j & fr & Hj & _ & Hend).
  destruct (after_status tools graph j r fr Hj) as (_ & _ & Hs).
  assert (Hfinish : forall fr', run_status (run fr') = running ->
            exists earlier last,
              run_log (final_run (normal_finish fr')) = earlier ++ [last] /\
              closes last (run_status (final_run (normal_finish fr')))
                = true).
  { intros fr' Hst. rewrite normal_finish_status by congruence.
    exists (log fr'), ExecutionFinished. now split. }
  destruct Hend as [Hn|[(fr2 & Hcur & Hb & Hn)|(res & Hcur & Hb & Hn)]];
    rewrite Hn; intros Hhow.
  - apply Hfinish. congruence.
  - apply loop_body_Break in Hb as (_ & _ & Hs2). apply Hfinish. congruence.
  - apply loop_body_Halt_log in Hb as (tail & Hl & _ & Hlast).
    rewrite Hhow in Hlast. destruct Hlast as (last & -> & Hcl).
    exists (log fr ++ [RunningNode (current fr)
                         (str_get (current fr) (nodes graph))]), last.
    rewrite Hl, <- app_assoc. now split.
Qed.

Lemma last_entry_matches_status_witness :
  exists earlier last,
    run_log (final_run (execute TOOLS pipeline MAX_STEPS
                          (new_run mixed_state)))
      = earlier ++ [last] /\
    closes last
      (run_status (final_run (execute TOOLS pipeline MAX_STEPS
                                (new_run mixed_state)))) = true.
Proof.
  apply (last_entry_matches_status TOOLS pipeline MAX_STEPS
           (new_run mixed_state)); reflexivity.
Defined.

(** X22.  A self-loop on a tool that reaches a fixed point at its first
    call runs at most twice: the second call changes nothing and the
    safety stop ends the run, finished, with the fixed point as state
    (at the first call already, when that call changed nothing). *)
Theorem fixed_point_stops_a_self_loop (tools : registry)
    (node name : string) (tool_fn : Tool value) (max_steps : nat)
    (r : RunRecord) (s1 : value) :
  let graph := {| nodes := [(node, name)]; edges := [(node, node)];
                  start_node := node; loop_condition := None |} in
  node <> "" ->
  tools name = Some tool_fn ->
  tool_fn (run_state r) = Returns s1 s1 ->
  tool_fn s1 = Returns s1 s1 ->
  wf_value s1 = true ->
  (2 <= max_steps)%nat ->
  let res := execute tools graph max_steps r in
  how res = Returned /\
  run_status (final_run res) = finished /\
  run_state (final_run res) = s1 /\
  steps res = (if py_eq s1 (run_state r) then 1%nat else 2%nat) /\
  exists earlier, run_log (final_run res) = earlier ++ [StateUnchanged].
Proof.
  intros graph Hnode Htool H1 H2 Hwf Hcap res. subst res.
  assert (Hif : forall s : value, (if is_none s then s else s) = s)
    by (intros s; now destruct (is_none s)).
  assert (Hempty : String.eqb node "" = false)
    by (now destruct (String.eqb_spec node "")).
  set (log1 := run_log r ++ [RunningNode node (Some name)]).
  set (fr1 := {| current := node; visited := 1; state := s1;
                 prev_state := s1; log := log1;
                 run := set_log log1 (set_state s1 r) |}).
  assert (Hpass1 :
    loop_body tools graph (entry graph r) =
      if py_eq s1 (run_state r)
      then Halt {| final_run :=
                     {| run_state := s1;
                        run_log := log1 ++ [StateUnchanged];
                        run_status := finished |};
                   steps := 1; how := Returned |}
      else Next fr1).
  { unfold loop_body. simpl. rewrite String.eqb_refl. simpl.
    rewrite Htool, H1, Hif.
    destruct (py_eq s1 (run_state r)); [reflexivity|].
    now rewrite Hempty. }
  assert (Hpass2 :
    loop_body tools graph fr1 =
      Halt {| final_run :=
                {| run_state := s1;
                   run_log := (log1 ++ [RunningNode node (Some name)])
                              ++ [StateUnchanged];
                   run_status := finished |};
              steps := 2; how := Returned |}).
  { unfold loop_body. simpl. rewrite String.eqb_refl. simpl.
    rewrite Htool, H2, Hif. now rewrite (py_eq_refl s1 Hwf). }
  destruct (py_eq s1 (run_state r)) eqn:Heq.
  - rewrite (execute_halts_at tools graph max_steps 0 r (entry graph r) _
               eq_refl ltac:(lia) Hnode Hpass1).
    simpl. repeat split. now exists log1.
  - assert (Hafter : after tools graph 1 (entry graph r) = Some fr1).
    { simpl. rewrite Hempty. now rewrite Hpass1. }
    rewrite (execute_halts_at tools graph max_steps 1 r fr1 _
               Hafter ltac:(lia) Hnode Hpass2).
    simpl. repeat split. eexists. reflexivity.
Qed.

Lemma fixed_point_stops_a_self_loop_witness :
  let res := execute TOOLS (self_loop "generate_rules" None) MAX_STEPS
               (new_run scenario_state) in
  how res = Returned /\
  run_status (final_run res) = finished /\
  run_state (final_run res) =
    VDict [("data", VList [VInt 1; VNone; VInt 150]);
           ("anomaly_bounds", VList [VInt 0; VInt 100]);
           ("rules", VList [])] /\
  steps res = 2%nat /\
  exists earlier, run_log (final_run res) = earlier ++ [StateUnchanged].
Proof.
  apply (fixed_point_stops_a_self_loop TOOLS "a" "generate_rules"
           generate_rules_tool MAX_STEPS (new_run scenario_state)
           (VDict [("data", VList [VInt 1; VNone; VInt 150]);
                   ("anomaly_bounds", VList [VInt 0; VInt 100]);
                   ("rules", VList [])]));
    [ discriminate | reflexivity | reflexivity | reflexivity | reflexivity
    | unfold MAX_STEPS; lia ].
Defined.

Lemma tool_for_registered (tools : registry) (tool_name : option string)
    (tool_fn : Tool value) :
  tool_for tools tool_name = Some tool_fn ->
  exists name, tools name = Some tool_fn.
Proof. destruct tool_name as [name|]; [eauto|discriminate]. Qed.

(** The state a halting pass stores: the one it found, or what the tool
    it called made of it. *)
Lemma loop_body_Halt_state (tools : registry) (graph : GraphDef)
    (fr : frame) (res : exec_result) :
  loop_body tools graph fr = Halt res ->
  run_state (final_run res) = run_state (run fr) \/
  exists tool_fn,
    tool_for tools (str_get (current fr) (nodes graph)) = Some tool_fn /\
    ((exists st e, tool_fn (state fr) = Raises st e /\
                   run_state (final_run res) = st) \/
     (exists st result,
        tool_fn (state fr) = Returns st result /\
        run_state (final_run res) = if is_none result then st else result)).
Proof.
  unfold loop_body.
  destruct (tool_for _ _) as [tool_fn|].
  2:{ intros H. inversion H; subst. now left. }
  intros H. right. exists tool_fn. split; [reflexivity|].
  destruct (tool_fn _) as [st result|st e].
  2:{ inversion H; subst. left. now exists st, e. }
  right. exists st, result. split; [reflexivity|].
  destruct (_condition_satisfied _ _) as [[[] mv]|].
  - inversion H; subst. reflexivity.
  - destruct (py_eq _ _).
    + inversion H; subst. reflexivity.
    + destruct (str_get _ _) as [n|]; [destruct (String.eqb n "")|];
        discriminate.
  - inversion H; subst. reflexivity.
Qed.

(** The executor changes the state through the tools only: what every
    registered tool preserves, whether it returns or raises, holds of
    the state a run leaves. *)
Lemma execute_keeps (tools : registry) (graph : GraphDef) (max_steps : nat)
    (P : value -> Prop) :
  (forall name tool_fn s,
     tools name = Some tool_fn -> P s ->
     match tool_fn s with
     | Returns st result => P (if is_none result then st else result)
     | Raises st _ => P st
     end) ->
  forall r, P (run_state r) ->
    P (run_state (final_run (execute tools graph max_steps r))).
Proof.
  intros Hkeep r Hr. unfold execute.
  destruct (run_loop_ends tools graph max_steps (entry graph r))
    as (j & fr & Hj & _ & Hend).
  assert (Hafter : forall k fr0 fr1,
            after tools graph k fr0 = Some fr1 ->
            P (state fr0) -> P (state fr1)).
  { induction k as [|k IH]; simpl; intros fr0 fr1 H HP.
    - now inversion H; subst.
    - destruct (String.eqb (current fr0) ""); [discriminate|].
      destruct (loop_body tools graph fr0) as [fr2| |] eqn:Hb;
        try discriminate.
      apply loop_body_Next_log in Hb
        as (_ & tool_fn & st & result & Ht & Hret & Hst).
      apply (IH fr2 fr1 H). rewrite Hst.
      apply tool_for_registered in Ht as (name & Hname).
      specialize (Hkeep name tool_fn (state fr0) Hname HP).
      now rewrite Hret in Hkeep. }
  assert (HP : P (state fr)) by (apply (Hafter j _ _ Hj); exact Hr).
  destruct (after_status tools graph j r fr Hj) as ((Hrs & _ & _) & _ & _).
  assert (Hfinish : forall fr', run_state (run fr') = state fr' ->
            P (state fr') ->
            P (run_state (final_run (normal_finish fr')))).
  { intros fr' Hsync HP'. unfold normal_finish.
    destruct (negb _); simpl; [exact HP'|now rewrite Hsync]. }
  destruct Hend as [Hn|[(fr2 & Hcur & Hb & Hn)|(res & Hcur & Hb & Hn)]];
    rewrite Hn.
  - now apply Hfinish.
  - pose proof (loop_body_Break _ _ _ _ Hb) as ((Hsync & _ & _) & _ & _).
    apply loop_body_Break_log in Hb
      as (_ & tool_fn & st & result & Ht & Hret & Hst).
    apply Hfinish; [exact Hsync|]. rewrite Hst.
    apply tool_for_registered in Ht as (name & Hname).
    specialize (Hkeep name tool_fn (state fr) Hname HP).
    now rewrite Hret in Hkeep.
  - apply loop_body_Halt_state in Hb
      as [Hsame|(tool_fn & Ht & [(st & e & Hret & Hst)
                                |(st & result & Hret & Hst)])].
    + now rewrite Hsame, Hrs.
    + rewrite Hst. apply tool_for_registered in Ht as (name & Hname).
      specialize (Hkeep name tool_fn (state fr) Hname HP).
      now rewrite Hret in Hkeep.
    + rewrite Hst. apply tool_for_registered in Ht as (name & Hname).
      specialize (Hkeep name tool_fn (state fr) Hname HP).
      now rewrite Hret in Hkeep.
Qed.

Lemma written_key_cases (name : string) :
  written_key name = "profile" \/ written_key name = "anomalies" \/
  written_key name = "rules" \/ written_key name = "data".
Proof.
  unfold written_key.
  repeat match goal with
         | |- context [if ?b then _ else _] => destruct b
         end; auto.
Qed.

(** X23.  A run over the registered tools touches four keys at most:
    whatever graph is executed and however the run ends, the state it
    leaves is a dict that binds every key other than [profile],
    [anomalies], [rules] and [data] as the initial state did (so
    [anomaly_bounds], for one, is never changed). *)
Theorem run_keeps_foreign_keys (graph : GraphDef) (r : RunRecord)
    (d : dict) (k : string) :
  run_state r = VDict d ->
  k <> "profile" -> k <> "anomalies" -> k <> "rules" -> k <> "data" ->
  exists d',
    run_state (final_run (execute_graph graph r)) = VDict d' /\
    dict_get k d' = dict_get k d.
Proof.
  intros Hr Hk1 Hk2 Hk3 Hk4. unfold execute_graph.
  apply (execute_keeps TOOLS graph MAX_STEPS
           (fun s => exists d', s = VDict d' /\ dict_get k d' = dict_get k d)).
  - intros name tool_fn s Hname (d0 & -> & Hd0).
    destruct (tool_fn (VDict d0)) as [st result|st e] eqn:Hcall.
    + destruct (TOOLS_assign name tool_fn Hname _ _ _ Hcall)
        as (-> & d1 & v & Hs & ->).
      inversion Hs; subst d1.
      exists (dict_set (written_key name) v d0). split.
      * now destruct (is_none _).
      * rewrite dict_get_set_other; [exact Hd0|].
        destruct (written_key_cases name) as [->|[->|[->| ->]]]; auto.
    + rewrite (TOOLS_untouched name tool_fn Hname _ _ _ Hcall). eauto.
  - rewrite Hr. eauto.
Qed.

Lemma run_keeps_foreign_keys_witness :
  exists d',
    run_state (final_run (execute_graph clip_loop (new_run clip_loop_state)))
      = VDict d' /\
    dict_get "anomaly_bounds" d' = Some (VList [VInt 0; VInt 100]).
Proof.
  apply (run_keeps_foreign_keys clip_loop (new_run clip_loop_state)
           [("data", VList [VInt 1; VInt 150]);
            ("anomaly_bounds", VList [VInt 0; VInt 100]);
            ("rules", VList [clip_rule_of (VInt 0) (VInt 100)])]
           "anomaly_bounds"); [reflexivity | discriminate ..].
Defined.

(** X24.  A run whose initial state is not a dict, a JSON list or number
    say, fails at its first node when that node is bound to a registered
    tool: the tool's [AttributeError] is logged, the state is stored as
    it came, and no second node is run. *)
Theorem non_dict_state_fails_first_node (graph : GraphDef) (r : RunRecord)
    (name : string) (tool_fn : Tool value) :
  start_node graph <> "" ->
  str_get (start_node graph) (nodes graph) = Some name ->
  TOOLS name = Some tool_fn ->
  is_dict (run_state r) = false ->
  execute_graph graph r =
    {| final_run :=
         {| run_state := run_state r;
            run_log :=
              run_log r ++
              [RunningNode (start_node graph) (Some name);
               ExceptionIn (Some name) AttributeError];
            run_status := failed |};
       steps := 1;
       how := Returned |}.
Proof.
  intros Hstart Hnode Htool Hdict. unfold execute_graph.
  apply (execute_halts_at TOOLS graph MAX_STEPS 0 r (entry graph r));
    [reflexivity | unfold MAX_STEPS; lia | exact Hstart |].
  unfold loop_body. simpl. rewrite Hnode. simpl. rewrite Htool.
  rewrite (TOOLS_need_a_dict name tool_fn (run_state r) Htool Hdict).
  unfold set_state, set_log, set_status. simpl.
  now rewrite <- app_assoc.
Qed.

Lemma non_dict_state_fails_first_node_witness :
  execute_graph pipeline (new_run (VList [VInt 1; VNone; VInt 150])) =
    {| final_run :=
         {| run_state := VList [VInt 1; VNone; VInt 150];
            run_log :=
              [RunningNode "profile" (Some "profile");
               ExceptionIn (Some "profile") AttributeError];
            run_status := failed |};
       steps := 1;
       how := Returned |}.
Proof.
  apply (non_dict_state_fails_first_node pipeline
           (new_run (VList [VInt 1; VNone; VInt 150])) "profile"
           profile_data_tool);
    [discriminate | reflexivity | reflexivity | reflexivity].
Defined.

(** ** The endpoints *)

Lemma store_get_set_same {A} (k : string) (a : A) (m : list (string * A)) :
  store_get k (store_set k a m) = Some a.
Proof.
  induction m as [|[k0 a0] m IH]; simpl.
  - now rewrite String.eqb_refl.
  - destruct (String.eqb_spec k k0) as [->|Hne]; simpl.
    + now rewrite String.eqb_refl.
    + destruct (String.eqb_spec k k0); [contradiction|exact IH].
Qed.

Lemma store_get_set_other {A} (k k' : string) (a : A)
    (m : list (string * A)) :
  k <> k' -> store_get k (store_set k' a m) = store_get k m.
Proof.
  intros Hk. induction m as [|[k0 a0] m IH]; simpl.
  - destruct (String.eqb_spec k k'); [contradiction|reflexivity].
  - destruct (String.eqb_spec k' k0) as [->|Hne]; simpl.
    + destruct (String.eqb_spec k k0); [contradiction|reflexivity].
    + destruct (String.eqb k k0); [reflexivity|exact IH].
Qed.

(** X25.  What /graph/run_sync answers is what /graph/state then shows:
    when the call returns a body, the graph was in the store, the body
    carries the state, log and status that [execute_graph] left for the
    fresh run record, and a later read of that run returns the same
    three. *)
Theorem run_sync_answer_is_stored (st st' : stores) (run_id : string)
    (payload : dict) (answer : response) :
  run_graph_sync st run_id payload = (st', Ok answer) ->
  exists graph_id graph,
    getitem (VDict payload) "graph_id" = Ok graph_id /\
    graph_lookup (GRAPHS st) graph_id = Ok (Some graph) /\
    let init_state := match dict_get "initial_state" payload with
                      | Some v => v
                      | None => VDict []
                      end in
    let res := execute_graph graph (new_run init_state) in
    how res = Returned /\
    answer = RunFinished run_id (run_state (final_run res))
               (run_log (final_run res)) (run_status (final_run res)) /\
    get_run_state st' run_id =
      RunView (run_state (final_run res)) (run_log (final_run res))
        (run_status (final_run res)).
Proof.
  unfold run_graph_sync.
  destruct (getitem (VDict payload) "graph_id") as [graph_id|];
    [|discriminate].
  cbn [GRAPHS].
  destruct (graph_lookup (GRAPHS st) graph_id) as [[graph|]|] eqn:Hg;
    try discriminate.
  destruct (how (execute_graph graph _)) eqn:Hhow; [|discriminate].
  intros H. inversion H; subst; clear H.
  exists graph_id, graph. repeat split; auto.
  unfold get_run_state. cbn [RUNS]. now rewrite store_get_set_same.
Qed.

Lemma run_sync_answer_is_stored_witness :
  exists graph_id graph,
    getitem (VDict (demo_payload "g1")) "graph_id" = Ok graph_id /\
    graph_lookup (GRAPHS demo_stores) graph_id = Ok (Some graph) /\
    let init_state := match dict_get "initial_state" (demo_payload "g1") with
                      | Some v => v
                      | None => VDict []
                      end in
    let res := execute_graph graph (new_run init_state) in
    how res = Returned /\
    snd (run_graph_sync demo_stores "r1" (demo_payload "g1")) =
      Ok (RunFinished "r1" (run_state (final_run res))
            (run_log (final_run res)) (run_status (final_run res))) /\
    get_run_state (fst (run_graph_sync demo_stores "r1" (demo_payload "g1")))
      "r1" =
      RunView (run_state (final_run res)) (run_log (final_run res))
        (run_status (final_run res)).
Proof.
  destruct (run_graph_sync demo_stores "r1" (demo_payload "g1"))
    as [st' answer] eqn:Hrun.
  assert (Hanswer : exists a, answer = Ok a).
  { vm_compute in Hrun. inversion Hrun. eauto. }
  destruct Hanswer as (a & ->).
  destruct (run_sync_answer_is_stored demo_stores st' "r1"
              (demo_payload "g1") a Hrun)
    as (graph_id & graph & H1 & H2 & H3 & H4 & H5).
  exists graph_id, graph. cbv zeta. simpl fst. simpl snd.
  repeat split; auto. now rewrite H4.
Defined.

(** X26.  The two run endpoints treat an unknown graph differently.
    /graph/run checks first: it answers with the error pair and leaves
    both stores as they are.  /graph/run_sync creates the run record
    before the graph is looked up: the lookup raises [KeyError], and the
    record stays in the store with status running and an empty log,
    which is what /graph/state reports for it from then on. *)
Theorem unknown_graph_strands_a_sync_run (st : stores) (run_id id : string)
    (payload : dict) :
  dict_get "graph_id" payload = Some (VStr id) ->
  store_get id (GRAPHS st) = None ->
  run_graph st run_id payload =
    (st, Ok (ErrorPair "graph_id not found" 400), None) /\
  exists st',
    run_graph_sync st run_id payload = (st', Err KeyError) /\
    GRAPHS st' = GRAPHS st /\
    get_run_state st' run_id =
      RunView (match dict_get "initial_state" payload with
               | Some v => v
               | None => VDict []
               end) [] running.
Proof.
  intros Hid Hnone. split.
  - unfold run_graph. simpl. now rewrite Hid; simpl; rewrite Hnone.
  - unfold run_graph_sync. simpl. rewrite Hid. simpl. rewrite Hnone.
    eexists. split; [reflexivity|]. split; [reflexivity|].
    unfold get_run_state. simpl. now rewrite store_get_set_same.
Qed.

Lemma unknown_graph_strands_a_sync_run_witness :
  run_graph demo_stores "r1" (demo_payload "nope") =
    (demo_stores, Ok (ErrorPair "graph_id not found" 400), None) /\
  exists st',
    run_graph_sync demo_stores "r1" (demo_payload "nope")
      = (st', Err KeyError) /\
    GRAPHS st' = GRAPHS demo_stores /\
    get_run_state st' "r1" = RunView scenario_state [] running.
Proof.
  exact (unknown_graph_strands_a_sync_run demo_stores "r1" "nope"
           (demo_payload "nope") eq_refl eq_refl).
Defined.

(** X27.  A graph that /graph/create has stored is the graph that
    /graph/run_sync executes under the identifier returned: the run
    record ends up holding what [execute_graph] leaves for that graph
    and the request's initial state, the call answers with it when the
    execution returns and raises what escaped otherwise; graphs stored
    under other identifiers are not affected by the creation. *)
Theorem created_graph_is_the_one_run (st : stores) (graph_id run_id : string)
    (g : GraphDef) (payload : dict) :
  dict_get "graph_id" payload = Some (VStr graph_id) ->
  let st1 := fst (create_graph st graph_id g) in
  let init_state := match dict_get "initial_state" payload with
                    | Some v => v
                    | None => VDict []
                    end in
  let res := execute_graph g (new_run init_state) in
  snd (create_graph st graph_id g) = GraphCreated graph_id /\
  (forall other, other <> graph_id ->
     store_get other (GRAPHS st1) = store_get other (GRAPHS st)) /\
  store_get run_id (RUNS (fst (run_graph_sync st1 run_id payload)))
    = Some (final_run res) /\
  snd (run_graph_sync st1 run_id payload) =
    match how res with
    | Returned =>
        Ok (RunFinished run_id (run_state (final_run res))
              (run_log (final_run res)) (run_status (final_run res)))
    | Uncaught e => Err e
    end.
Proof.
  intros Hid. cbv zeta. split; [reflexivity|]. split.
  - intros other Hother. simpl. now apply store_get_set_other.
  - unfold run_graph_sync. simpl. rewrite Hid. simpl.
    rewrite store_get_set_same.
    destruct (how (execute_graph g _)); simpl;
      now rewrite store_get_set_same.
Qed.

Lemma created_graph_is_the_one_run_witness :
  snd (run_graph_sync (fst (create_graph demo_stores "g2" clip_loop)) "r1"
         [("graph_id", VStr "g2"); ("initial_state", clip_loop_state)])
  = Ok (RunFinished "r1"
          (run_state (final_run (execute_graph clip_loop
                                   (new_run clip_loop_state))))
          (run_log (final_run (execute_graph clip_loop
                                 (new_run clip_loop_state))))
          finished).
Proof.
  destruct (created_graph_is_the_one_run demo_stores "g2" "r1" clip_loop
              [("graph_id", VStr "g2"); ("initial_state", clip_loop_state)]
              eq_refl) as (_ & _ & _ & Hanswer).
  rewrite Hanswer. reflexivity.
Defined.

(** X28.  A run endpoint writes one slot: /graph/run and
    /graph/run_sync, whatever they answer or raise, leave the graph
    store as it is and every run record other than the new one
    untouched. *)
Theorem run_endpoints_write_one_slot (st : stores) (run_id other : string)
    (payload : dict) :
  other <> run_id ->
  let after_sync := fst (run_graph_sync st run_id payload) in
  let after_async := fst (fst (run_graph st run_id payload)) in
  GRAPHS after_sync = GRAPHS st /\
  store_get other (RUNS after_sync) = store_get other (RUNS st) /\
  GRAPHS after_async = GRAPHS st /\
  store_get other (RUNS after_async) = store_get other (RUNS st).
Proof.
  intros Hother. cbv zeta. unfold run_graph_sync, run_graph.
  destruct (getitem (VDict payload) "graph_id") as [graph_id|];
    [|now repeat split].
  cbn [GRAPHS].
  destruct (graph_lookup (GRAPHS st) graph_id) as [[graph|]|];
    try destruct (how (execute_graph graph _)); simpl;
    rewrite ?store_get_set_other by exact Hother; now repeat split.
Qed.

Lemma run_endpoints_write_one_slot_witness :
  get_run_state (fst (run_graph_sync demo_stores "r1" (demo_payload "g1")))
    "r0" = RunView (VDict []) [] running /\
  get_run_state (fst (fst (run_graph demo_stores "r1" (demo_payload "g1"))))
    "r0" = RunView (VDict []) [] running.
Proof.
  destruct (run_endpoints_write_one_slot demo_stores "r1" "r0"
              (demo_payload "g1") ltac:(discriminate))
    as (_ & Hsync & _ & Hasync).
  unfold get_run_state. rewrite Hsync, Hasync. split; reflexivity.
Defined.
